(** * pyrainbird: the controller's command dispatch and state cache

    A shallow embedding of [pyrainbird/__init__.py] (class
    [RainbirdController] and the helper [_check_delay]).

    - Python values that travel through the dispatcher are the inductive
      [value]; a decoded response is a [gmap string field].
    - A method is a computation in the monad [M]: it threads the [world]
      (the controller object together with the history of what was handed to
      the transport and how often the clock was read) and either returns a
      value or raises an exception; the world survives a raise, as the
      fields of [self] do in Python.
    - The codec ([rainbird.encode], [rainbird.decode]), the protocol table
      ([RAIBIRD_COMMANDS]), the transport ([RainbirdClient.request]), the
      clock ([time.time]) and [_DEFAULT_PAGE] are collaborators outside this
      module; they are the fields of the record [collaborators].  Both
      functions of the codec can raise.
    - Calls to the logger have no effect on the controller and are left out.
    - [time.time()] yields floating-point seconds in Python; clock readings
      and [update_delay] are integers here (ticks of a common unit): the
      module only adds a delay to a reading and compares two readings. *)

From Stdlib Require Import ZArith Ascii String.
From stdpp Require Import base option list gmap strings.

Local Open Scope string_scope.
Local Open Scope list_scope.
Local Open Scope Z_scope.

(** ** Strings: slices and the "%08X" conversion *)

(** [s[:n]] on a Python string. *)
Fixpoint str_take (n : nat) (s : string) : string :=
  match n, s with
  | S n', String c r => String c (str_take n' r)
  | _, _ => EmptyString
  end.

(** The upper-case hexadecimal digit of a value below 16. *)
Definition hex_char (d : Z) : ascii :=
  match d with
  | 0 => "0" | 1 => "1" | 2 => "2" | 3 => "3"
  | 4 => "4" | 5 => "5" | 6 => "6" | 7 => "7"
  | 8 => "8" | 9 => "9" | 10 => "A" | 11 => "B"
  | 12 => "C" | 13 => "D" | 14 => "E" | _ => "F"
  end%char.

(** The value of a hexadecimal digit, in either case, from its character
    code: the digits from 48, the capitals from 65, the small letters from
    97. *)
Definition hex_val (c : ascii) : option Z :=
  let code := Z.of_N (N_of_ascii c) in
  if (48 <=? code) && (code <=? 57) then Some (code - 48)
  else if (65 <=? code) && (code <=? 70) then Some (code - 55)
  else if (97 <=? code) && (code <=? 102) then Some (code - 87)
  else None.

Definition is_hex_digit (c : ascii) : bool :=
  match hex_val c with Some _ => true | None => false end.

(** The hexadecimal digits of a non-negative integer, most significant
    first, in front of [acc].  [fuel] bounds the number of digits;
    [hex_digits] supplies enough of it ([hex_digits_value] below). *)
Fixpoint hex_digits_aux (fuel : nat) (n : Z) (acc : list ascii) : list ascii :=
  match fuel with
  | O => acc
  | S fuel' =>
      if n <? 16 then hex_char n :: acc
      else hex_digits_aux fuel' (n / 16) (hex_char (n mod 16) :: acc)
  end.

Definition hex_digits (n : Z) : list ascii :=
  hex_digits_aux (S (Z.to_nat (Z.log2 n))) n [].

(** Left padding with the character 0 up to [width]. *)
Definition zero_pad (width : nat) (ds : list ascii) : list ascii :=
  replicate (width - length ds) "0"%char ++ ds.

(** ["%08X" % n]: at least eight characters; the sign of a negative number
    takes one of them. *)
Definition format_08X (n : Z) : string :=
  string_of_list_ascii
    (if n <? 0 then "-"%char :: zero_pad 7 (hex_digits (- n))
     else zero_pad 8 (hex_digits n)).

(** The number a list of hexadecimal digits denotes. *)
Definition digits_value (ds : list ascii) : option Z :=
  foldl (fun acc c => a ← acc; d ← hex_val c; Some (16 * a + d)) (Some 0) ds.

(** The rendering of [n] on exactly [k] digits (the low [k] digits). *)
Fixpoint fixed_hex (k : nat) (n : Z) : list ascii :=
  match k with
  | O => []
  | S k' => fixed_hex k' (n / 16) ++ [hex_char (n mod 16)]
  end.

(** ** Bitmask State *)

(** Modelled from the spec: the class [States] of [pyrainbird.data], which is
    imported by the module and not part of it.  A Bitmask State is the
    ordered sequence of flags obtained from a hex-digit string by expanding
    each digit into 4 bits, most significant bit first, in digit order.
    The specification describes masks of hex digits only; what the class
    does with any other string is a collaborator ([States_other]). *)
Record States := mkStates { states : list bool }.

(** Modelled from the spec: the 4 bits of one hex digit, most significant
    first. *)
Definition nibble_bits (d : Z) : list bool :=
  [Z.testbit d 3; Z.testbit d 2; Z.testbit d 1; Z.testbit d 0].

(** Modelled from the spec: the expansion of a mask of hex digits, digit
    after digit; [None] for a string the specification does not cover. *)
Fixpoint expand_hex (cs : list ascii) : option (list bool) :=
  match cs with
  | [] => Some []
  | c :: r => d ← hex_val c; bs ← expand_hex r; Some (nibble_bits d ++ bs)
  end.

(** Modelled from the spec: the Bitmask State [States(mask)] of a mask of
    hex digits; [None] for a string the specification does not cover. *)
Definition States_init (mask : string) : option States :=
  mkStates <$> expand_hex (list_ascii_of_string mask).

(** Modelled from the spec: [States.active(z)] is the bit at position [z] of
    the expanded sequence, counted from zero; a position outside the
    sequence has no answer. *)
Definition active (s : States) (z : Z) : option bool :=
  if z <? 0 then None else states s !! Z.to_nat z.

(** The all-zero state [States("00")]. *)
Definition States_00 : States := mkStates (replicate 8 false).

(** ** Python values, exceptions and the collaborators *)

(** A field of a decoded response: the codec produces integers, and the
    string under the key "type". *)
Inductive field :=
| FInt (n : Z)
| FStr (s : string).

(** The values the methods of the controller return. *)
Inductive value :=
| VNone
| VBool (b : bool)
| VInt (n : Z)
| VStr (s : string)
| VDict (m : gmap string field)
| VStates (s : States).

(** The exceptions that can leave a method.  [ProtocolMismatch] is the
    [Exception] that [command] raises on a wrong response code; it carries
    the three values formatted into its message: the code asked for, the
    code received and the decoded response. *)
Inductive exn :=
| KeyError (key : string)
| IndexError
| TypeError
| ValueError
| CodecError (msg : string)
| ProtocolMismatch (expected actual : string) (decoded : gmap string field).

Inductive outcome (A : Type) :=
| Ret (a : A)
| Raise (e : exn).
Arguments Ret {A} a.
Arguments Raise {A} e.

(** An entry of [RAIBIRD_COMMANDS["ControllerCommands"]]: the "length" and
    the "response" of a request. *)
Record command_desc := mkCommand {
  cmd_length : Z;
  cmd_response : string
}.

(** What the module takes from outside.  The transport and the clock are
    consulted once per call: [client_request k data len] is the answer to
    the request made after [k] earlier ones ([None] is Python's [None]), and
    [clock k] is the reading of [time.time()] after [k] earlier readings.
    [States_other mask] is what the constructor [States(mask)] of
    [pyrainbird.data] does with a mask that is not a string of hex digits
    (it may build a state or raise). *)
Record collaborators := mkCollaborators {
  rainbird_encode : string -> list Z -> outcome string;
  rainbird_decode : string -> outcome (gmap string field);
  ControllerCommands : gmap string command_desc;
  (** the "type" of each entry of [RAIBIRD_COMMANDS["ControllerResponses"]] *)
  ControllerResponses : gmap string string;
  client_request : nat -> string -> Z -> option string;
  clock : nat -> Z;
  _DEFAULT_PAGE : Z;
  States_other : string -> outcome States
}.

(** ** The controller object and the monad of its methods *)

Record RainbirdController := mkController {
  zones : States;
  rain_sensor : option bool;
  update_delay : Z;
  zone_update_time : option Z;
  sensor_update_time : option Z
}.

(** The controller together with the history of its exchanges: the requests
    handed to the transport (latest first) and the number of clock readings. *)
Record world := mkWorld {
  self : RainbirdController;
  sent : list (string * Z);
  clock_reads : nat
}.

Definition M (A : Type) : Type := world -> outcome A * world.

Definition ret {A} (a : A) : M A := fun w => (Ret a, w).

Definition raise {A} (e : exn) : M A := fun w => (Raise e, w).

Definition bind {A B} (m : M A) (k : A -> M B) : M B :=
  fun w =>
    match m w with
    | (Ret a, w') => k a w'
    | (Raise e, w') => (Raise e, w')
    end.

Notation "x <- m ;; k" := (bind m (fun x => k))
  (at level 100, m at next level, right associativity).
Notation "m ;; k" := (bind m (fun _ => k))
  (at level 100, right associativity).

Definition lift {A} (o : outcome A) : M A := fun w => (o, w).

(** A dictionary access [d[key]]. *)
Definition getitem {A} (key : string) (d : gmap string A) : outcome A :=
  match d !! key with
  | Some v => Ret v
  | None => Raise (KeyError key)
  end.

Definition get_self : M RainbirdController := fun w => (Ret (self w), w).

Definition modify_self (f : RainbirdController -> RainbirdController) : M unit :=
  fun w => (Ret tt, mkWorld (f (self w)) (sent w) (clock_reads w)).

Definition with_zones (z : States) (c : RainbirdController) : RainbirdController :=
  mkController z (rain_sensor c) (update_delay c)
               (zone_update_time c) (sensor_update_time c).

Definition with_rain_sensor (r : option bool) (c : RainbirdController)
  : RainbirdController :=
  mkController (zones c) r (update_delay c)
               (zone_update_time c) (sensor_update_time c).

Definition with_zone_update_time (t : option Z) (c : RainbirdController)
  : RainbirdController :=
  mkController (zones c) (rain_sensor c) (update_delay c)
               t (sensor_update_time c).

Definition with_sensor_update_time (t : option Z) (c : RainbirdController)
  : RainbirdController :=
  mkController (zones c) (rain_sensor c) (update_delay c)
               (zone_update_time c) t.

Definition set_zones (z : States) : M unit := modify_self (with_zones z).

Definition set_rain_sensor (r : option bool) : M unit :=
  modify_self (with_rain_sensor r).

Definition set_zone_update_time (t : option Z) : M unit :=
  modify_self (with_zone_update_time t).

Definition set_sensor_update_time (t : option Z) : M unit :=
  modify_self (with_sensor_update_time t).

(** [States(mask)] inside a method: the expansion of the specification for
    a mask of hex digits, and what the class does with it for any other
    mask. *)
Definition new_States (E : collaborators) (mask : string) : outcome States :=
  match States_init mask with
  | Some s => Ret s
  | None => States_other E mask
  end.

(** [self.zones.active(zone)]; a zone outside the sequence is an
    [IndexError]. *)
Definition zones_active (zone : Z) : M value :=
  c <- get_self ;;
  match active (zones c) zone with
  | Some b => ret (VBool b)
  | None => raise IndexError
  end.

(** [reduce(lambda x, y: x or y, seq)] on a sequence of booleans; [None] is
    the [TypeError] of [reduce] on an empty sequence. *)
Definition reduce_or (seq : list bool) : option bool :=
  match seq with
  | [] => None
  | x :: r => Some (foldl orb x r)
  end.

(** [v == True]. *)
Definition eq_True (v : value) : bool :=
  match v with
  | VBool true => true
  | VInt 1 => true
  | _ => false
  end.

(** [f == s] for a field and a string of the table. *)
Definition field_eq_str (f : field) (s : string) : bool :=
  match f with
  | FStr s' => bool_decide (s' = s)
  | FInt _ => false
  end.

(** [bool(f)]. *)
Definition truthy (f : field) : bool :=
  match f with
  | FInt n => negb (n =? 0)
  | FStr s => negb (bool_decide (s = ""))
  end.

Definition value_of_flag (r : option bool) : value :=
  match r with
  | Some b => VBool b
  | None => VNone
  end.

(** ** The methods of [RainbirdController] *)

(** [RainbirdController.__init__]: the server, the password and the retry
    settings configure the transport, which is a collaborator. *)
Definition __init__ (E : collaborators) (delay : Z)
  : outcome RainbirdController :=
  match new_States E "00" with
  | Ret s => Ret (mkController s None delay None None)
  | Raise e => Raise e
  end.

Section Controller.

Variable E : collaborators.

(** [time.time()]. *)
Definition time_time : M Z :=
  fun w => (Ret (clock E (clock_reads w)),
            mkWorld (self w) (sent w) (S (clock_reads w))).

(** [self.rainbird_client.request(data, length)]. *)
Definition request (data : string) (len : Z) : M (option string) :=
  fun w => (Ret (client_request E (length (sent w)) data len),
            mkWorld (self w) ((data, len) :: sent w) (clock_reads w)).

(** [RAIBIRD_COMMANDS["ControllerCommands"]["%sRequest" % command]]. *)
Definition command_entry (cmd : string) : outcome command_desc :=
  getitem (cmd +:+ "Request") (ControllerCommands E).

Definition command (cmd : string) (args : list Z)
  : M (option (gmap string field)) :=
  data <- lift (rainbird_encode E cmd args) ;;
  d <- lift (command_entry cmd) ;;
  decrypted_data <- request data (cmd_length d) ;;
  match decrypted_data with
  | None => ret None
  | Some raw =>
      decoded <- lift (rainbird_decode E raw) ;;
      if bool_decide (str_take 2 raw <> cmd_response d)
      then raise (ProtocolMismatch (cmd_response d) (str_take 2 raw) decoded)
      else ret (Some decoded)
  end.

Definition _process_command (funct : gmap string field -> outcome value)
    (cmd : string) (args : list Z) : M value :=
  response <- command cmd args ;;
  match response with
  | None => ret VNone
  | Some resp =>
      ty <- lift (getitem "type" resp) ;;
      d <- lift (command_entry cmd) ;;
      expected <- lift (getitem (cmd_response d) (ControllerResponses E)) ;;
      if field_eq_str ty expected then lift (funct resp)
      else ret (VDict resp)
  end.

(** [lambda resp: States(("%08X" % resp["activeStations"])[:2])]. *)
Definition states_of_response (resp : gmap string field) : outcome value :=
  match getitem "activeStations" resp with
  | Ret (FInt n) =>
      match new_States E (str_take 2 (format_08X n)) with
      | Ret s => Ret (VStates s)
      | Raise e => Raise e
      end
  | Ret (FStr _) => Raise TypeError
  | Raise e => Raise e
  end.

Definition _update_irrigation_state (page : Z) : M value :=
  result <- _process_command states_of_response "CurrentStationsActive" [page] ;;
  match result with
  | VStates s => set_zones s
  | _ => ret tt
  end ;;
  ret result.

Definition _check_delay (update_time : option Z) (delay : Z) : M bool :=
  match update_time with
  | None => ret true
  | Some t => now <- time_time ;; ret (t + delay <? now)
  end.

(** [lambda resp: bool(resp["sensorState"])]. *)
Definition sensor_of_response (resp : gmap string field) : outcome value :=
  match getitem "sensorState" resp with
  | Ret f => Ret (VBool (truthy f))
  | Raise e => Raise e
  end.

Definition get_rain_sensor_state : M value :=
  c <- get_self ;;
  stale <- _check_delay (sensor_update_time c) (update_delay c) ;;
  (if stale : bool then
     response <- _process_command sensor_of_response "CurrentRainSensorState" [] ;;
     match response with
     | VBool b =>
         set_rain_sensor (Some b) ;;
         now <- time_time ;;
         set_sensor_update_time (Some now)
     | _ => set_rain_sensor None
     end
   else ret tt) ;;
  c' <- get_self ;;
  ret (value_of_flag (rain_sensor c')).

(** [get_zone_state(zone, page)]; [page] defaults to [_DEFAULT_PAGE]. *)
Definition get_zone_state (zone page : Z) : M value :=
  c <- get_self ;;
  stale <- _check_delay (zone_update_time c) (update_delay c) ;;
  if stale : bool then
    response <- _update_irrigation_state page ;;
    match response with
    | VStates _ =>
        now <- time_time ;;
        set_zone_update_time (Some now) ;;
        zones_active zone
    | _ =>
        s <- lift (new_States E "00") ;;
        set_zones s ;;
        ret VNone
    end
  else zones_active zone.

Definition irrigate_zone (zone minutes : Z) : M value :=
  response <- _process_command (fun _ => Ret (VBool true))
                "ManuallyRunStation" [zone; minutes] ;;
  _update_irrigation_state (_DEFAULT_PAGE E) ;;
  if eq_True response then zones_active zone else ret (VBool false).

Definition stop_irrigation : M value :=
  response <- _process_command (fun _ => Ret (VBool true)) "StopIrrigation" [] ;;
  _update_irrigation_state (_DEFAULT_PAGE E) ;;
  if eq_True response then
    c <- get_self ;;
    match reduce_or (states (zones c)) with
    | Some any => ret (VBool (negb any))
    | None => raise TypeError
    end
  else ret (VBool false).

(** The calls a client can make.  [Process] stands for the methods that only
    wrap [_process_command] with a mapping function of their own
    ([get_model_and_version], [get_available_stations],
    [get_command_support], [get_serial_number], [get_current_time],
    [get_current_date], [water_budget], [set_program], [test_zone],
    [get_rain_delay], [set_rain_delay], [advance_zone],
    [get_current_irrigation], [schedule]); [Command] is the public method
    [command]. *)
Inductive call :=
| GetRainSensorState
| GetZoneState (zone page : Z)
| IrrigateZone (zone minutes : Z)
| StopIrrigation
| Process (funct : gmap string field -> outcome value) (cmd : string) (args : list Z)
| Command (cmd : string) (args : list Z).

(** The world after a call; its result is dropped. *)
Definition perform (c : call) (w : world) : world :=
  match c with
  | GetRainSensorState => snd (get_rain_sensor_state w)
  | GetZoneState zone page => snd (get_zone_state zone page w)
  | IrrigateZone zone minutes => snd (irrigate_zone zone minutes w)
  | StopIrrigation => snd (stop_irrigation w)
  | Process funct cmd args => snd (_process_command funct cmd args w)
  | Command cmd args => snd (command cmd args w)
  end.

(** The worlds a session passes through, call after call. *)
Definition session (cs : list call) (w : world) : world :=
  foldl (fun w c => perform c w) w cs.

End Controller.

(** A world around a freshly constructed controller. *)
Definition fresh_world (c : RainbirdController) : world := mkWorld c [] 0%nat.

(** ** The methods that only wrap [_process_command] *)

(** A field of a response as the Python value it is. *)
Definition value_of_field (f : field) : value :=
  match f with
  | FInt n => VInt n
  | FStr s => VStr s
  end.

(** [lambda resp: resp[key]]. *)
Definition field_of_response (key : string) (resp : gmap string field)
  : outcome value :=
  match getitem key resp with
  | Ret f => Ret (value_of_field f)
  | Raise e => Raise e
  end.

Section Wrappers.

Variable E : collaborators.

Definition get_serial_number : M value :=
  _process_command E (field_of_response "serialNumber") "SerialNumber" [].

Definition set_program (program : Z) : M value :=
  _process_command E (fun _ => Ret (VBool true)) "ManuallyRunProgram" [program].

Definition test_zone (zone : Z) : M value :=
  _process_command E (fun _ => Ret (VBool true)) "TestStations" [zone].

Definition get_rain_delay : M value :=
  _process_command E (field_of_response "delaySetting") "RainDelayGet" [].

Definition set_rain_delay (days : Z) : M value :=
  _process_command E (fun _ => Ret (VBool true)) "RainDelaySet" [days].

Definition advance_zone (param : Z) : M value :=
  _process_command E (fun _ => Ret (VBool true)) "AdvanceStation" [param].

Definition get_current_irrigation : M value :=
  _process_command E (field_of_response "irrigationState")
    "CurrentIrrigationState" [].

(** [schedule]: the mapping function is [lambda resp: resp]. *)
Definition schedule (param1 param2 : Z) : M value :=
  _process_command E (fun resp => Ret (VDict resp)) "CurrentSchedule"
    [param1; param2].

End Wrappers.

(** ** A sample device, for the examples *)

(** A small protocol table: five requests and the responses they expect. *)
Definition sample_commands : gmap string command_desc :=
  list_to_map
    [("ModelAndVersionRequest", mkCommand 1 "82");
     ("CurrentStationsActiveRequest", mkCommand 2 "BF");
     ("CurrentRainSensorStateRequest", mkCommand 1 "BE");
     ("ManuallyRunStationRequest", mkCommand 4 "01");
     ("StopIrrigationRequest", mkCommand 1 "01")].

Definition sample_responses : gmap string string :=
  list_to_map
    [("82", "ModelAndVersionResponse");
     ("BF", "CurrentStationsActiveResponse");
     ("BE", "CurrentRainSensorStateResponse");
     ("01", "AcknowledgeResponse");
     ("00", "NotAcknowledgeResponse")].

(** The integer in the [len] hex digits of [raw] from position [pos]
    (0 when they are no hex digits). *)
Definition hex_field (raw : string) (pos len : nat) : field :=
  FInt (default 0 (digits_value (list_ascii_of_string (substring pos len raw)))).

(** The fields a decoder for the sample table reads from a response: the
    type tag of the response code and the fields of the three responses
    used below. *)
Definition sample_decode (raw : string) : gmap string field :=
  let code := str_take 2 raw in
  match sample_responses !! code with
  | None => {[ "data" := FStr raw ]}
  | Some ty =>
      let fields :=
        if bool_decide (code = "BF") then
          [("pageNumber", hex_field raw 2 2); ("activeStations", hex_field raw 4 8)]
        else if bool_decide (code = "BE") then [("sensorState", hex_field raw 2 2)]
        else if bool_decide (code = "01") then [("commandEcho", hex_field raw 2 2)]
        else [] in
      <["type" := FStr ty]> (list_to_map fields)
  end.

(** An encoder that accepts every command: the payload is the command name. *)
Definition sample_encode (cmd : string) (args : list Z) : outcome string :=
  Ret cmd.

(** A device that answers the k-th request with the k-th entry of [script]
    (nothing once the script is over) and whose clock shows the k-th entry
    of [times]; its decoder always returns, and its class [States] raises
    on a mask that is not made of hex digits. *)
Definition sample_device (script : list (option string)) (times : list Z)
  : collaborators :=
  mkCollaborators sample_encode (fun raw => Ret (sample_decode raw))
    sample_commands sample_responses
    (fun k _ _ => mjoin (script !! k))
    (fun k => default 0 (times !! k))
    0 (fun _ => Raise ValueError).

(** A controller with update delay 20, as [__init__] leaves it. *)
Definition controller0 : RainbirdController :=
  mkController States_00 None 20 None None.

(** A device whose decoder tags every response "OtherResponse", whatever its
    response code, and whose transport always answers "BF00". *)
Definition other_type_device : collaborators :=
  mkCollaborators sample_encode
    (fun _ => Ret {[ "type" := FStr "OtherResponse" ]})
    sample_commands sample_responses (fun _ _ _ => Some "BF00") (fun _ => 0) 0
    (fun _ => Raise ValueError).

(** A controller whose cache, read at time 100, has zone 0 active. *)
Definition controller80 : RainbirdController :=
  mkController (mkStates [true; false; false; false; false; false; false; false])
    None 20 (Some 100) (Some 100).

(** A second table, with the requests of the wrapping methods. *)
Definition wrapper_commands : gmap string command_desc :=
  list_to_map
    [("SerialNumberRequest", mkCommand 1 "85");
     ("ManuallyRunProgramRequest", mkCommand 2 "01");
     ("TestStationsRequest", mkCommand 2 "01");
     ("RainDelayGetRequest", mkCommand 1 "B6");
     ("RainDelaySetRequest", mkCommand 3 "01");
     ("AdvanceStationRequest", mkCommand 2 "01");
     ("CurrentIrrigationStateRequest", mkCommand 1 "C8");
     ("CurrentScheduleRequest", mkCommand 3 "A0");
     ("CurrentDateRequest", mkCommand 1 "92")].

Definition wrapper_responses : gmap string string :=
  list_to_map
    [("85", "SerialNumberResponse");
     ("01", "AcknowledgeResponse");
     ("00", "NotAcknowledgeResponse");
     ("B6", "RainDelaySettingResponse");
     ("C8", "CurrentIrrigationStateResponse");
     ("A0", "CurrentScheduleResponse")].

(** Its decoder: the type tag of the response code, and the one field of
    the responses that have one; a serial number response shorter than its
    field has no "serialNumber". *)
Definition wrapper_decode (raw : string) : gmap string field :=
  let code := str_take 2 raw in
  match wrapper_responses !! code with
  | None => {[ "data" := FStr raw ]}
  | Some ty =>
      let fields :=
        if bool_decide (code = "85") then
          if (18 <=? String.length raw)%nat
          then [("serialNumber", hex_field raw 2 16)] else []
        else if bool_decide (code = "B6") then [("delaySetting", hex_field raw 2 4)]
        else if bool_decide (code = "C8") then [("irrigationState", hex_field raw 2 2)]
        else if bool_decide (code = "01") then [("commandEcho", hex_field raw 2 2)]
        else [] in
      <["type" := FStr ty]> (list_to_map fields)
  end.

(** An encoder that knows the commands of the table only. *)
Definition wrapper_encode (cmd : string) (args : list Z) : outcome string :=
  match wrapper_commands !! (cmd +:+ "Request") with
  | Some _ => Ret cmd
  | None => Raise (CodecError cmd)
  end.

Definition wrapper_device (script : list (option string)) : collaborators :=
  mkCollaborators wrapper_encode (fun raw => Ret (wrapper_decode raw))
    wrapper_commands wrapper_responses (fun k _ _ => mjoin (script !! k))
    (fun _ => 0) 0 (fun _ => Raise ValueError).

(** A device whose decoder leaves out the "type" of a response. *)
Definition untyped_device : collaborators :=
  mkCollaborators sample_encode (fun raw => Ret {[ "data" := FStr raw ]})
    sample_commands sample_responses (fun _ _ _ => Some "8200") (fun _ => 0) 0
    (fun _ => Raise ValueError).

(** A device on the second table that answers every request with [answer]
    and whose decoder tags every response "OtherResponse". *)
Definition mistyped_device (answer : string) : collaborators :=
  mkCollaborators sample_encode
    (fun _ => Ret {[ "type" := FStr "OtherResponse" ]})
    wrapper_commands wrapper_responses (fun _ _ _ => Some answer) (fun _ => 0) 0
    (fun _ => Raise ValueError).

(** A decoder that reads its fields as [int(data[pos:pos+len], 16)] does: a
    response that ends before the position of its last field leaves an
    empty slice there, which is a [ValueError]. *)
Definition last_field_position (code : string) : nat :=
  if bool_decide (code = "BF") then 4
  else if bool_decide (code = "00") then 4
  else if bool_decide (code = "BE") then 2
  else if bool_decide (code = "01") then 2
  else 0.

Definition strict_decode (raw : string) : outcome (gmap string field) :=
  if (String.length raw <=? last_field_position (str_take 2 raw))%nat
  then Raise ValueError
  else Ret (sample_decode raw).

Definition strict_device (script : list (option string)) : collaborators :=
  mkCollaborators sample_encode strict_decode sample_commands sample_responses
    (fun k _ _ => mjoin (script !! k)) (fun _ => 0) 0
    (fun _ => Raise ValueError).



(** ** Notions used in the statements *)

(** A mask of exactly two hex digits. *)
Definition two_hex_digits (h : string) : Prop :=
  exists c1 c2, h = String c1 (String c2 EmptyString) /\
                is_hex_digit c1 = true /\ is_hex_digit c2 = true.

(** The world with one more clock reading and nothing else changed. *)
Definition tick (w : world) : world :=
  mkWorld (self w) (sent w) (S (clock_reads w)).

(** The world with the controller replaced. *)
Definition with_self (c : RainbirdController) (w : world) : world :=
  mkWorld c (sent w) (clock_reads w).

(** The world after a request was handed to the transport. *)
Definition after_request (data : string) (d : command_desc) (w : world) : world :=
  mkWorld (self w) ((data, cmd_length d) :: sent w) (clock_reads w).

(** The staleness rule as the specification words it: a reading taken at
    [update_time] is fresh at time [now]. *)
Definition fresh (update_time : option Z) (delay now : Z) : Prop :=
  exists t, update_time = Some t /\ now <= t + delay.

(** The opposite: there is no reading yet, or its window is over. *)
Definition stale (update_time : option Z) (delay now : Z) : Prop :=
  update_time = None \/ exists t, update_time = Some t /\ t + delay < now.

(** The world after the staleness check: the clock is read only when there
    is a reading to compare with. *)
Definition after_check (update_time : option Z) (w : world) : world :=
  match update_time with
  | None => w
  | Some _ => tick w
  end.

(** The world after a refresh was stamped with the next clock reading. *)
Definition stamped (set : option Z -> RainbirdController -> RainbirdController)
    (now : Z) (w : world) : world :=
  mkWorld (set (Some now) (self w)) (sent w) (S (clock_reads w)).

(** The value [zones.active(zone)] yields, as an outcome. *)
Definition bit_outcome (s : States) (zone : Z) : outcome value :=
  match active s zone with
  | Some b => Ret (VBool b)
  | None => Raise IndexError
  end.





(** What a method whose mapping function is [lambda resp: True] can do: it
    leaves the controller alone, and a value it returns is [True], [None] or
    a raw decoded response. *)
Definition action_outcome (E : collaborators) (m : M value) (w : world) : Prop :=
  self (snd (m w)) = self w /\
  forall v, fst (m w) = Ret v ->
            v = VBool true \/ v = VNone \/
            exists raw resp, rainbird_decode E raw = Ret resp /\ v = VDict resp.

(** [command] returned the response [resp], and the table has an entry for
    the command and a type tag [expected] for its response code. *)
Definition dispatched (E : collaborators) (cmd : string) (args : list Z)
    (w : world) (resp : gmap string field) (w' : world) (expected : string)
  : Prop :=
  command E cmd args w = (Ret (Some resp), w') /\
  exists d, ControllerCommands E !! (cmd +:+ "Request") = Some d /\
            ControllerResponses E !! cmd_response d = Some expected.

(** A sensor value in the cache has a time stamp beside it. *)
Definition sensor_stamped (c : RainbirdController) : Prop :=
  rain_sensor c <> None -> sensor_update_time c <> None.

(** A method that returns one field of the typed response: the field as a
    value when the response has it, a [KeyError] when it has not. *)
Definition reads_field (E : collaborators) (m : M value) (cmd key : string)
  : Prop :=
  forall w resp w' expected,
    dispatched E cmd [] w resp w' expected ->
    resp !! "type" = Some (FStr expected) ->
    (forall f, resp !! key = Some f -> m w = (Ret (value_of_field f), w')) /\
    (resp !! key = None -> m w = (Raise (KeyError key), w')).

(** * Properties *)

Example States_init_00 : States_init "00" = Some States_00.
Proof. reflexivity. Qed.

Example States_init_80 :
  States_init "80" = Some (mkStates [true; false; false; false; false; false; false; false]).
Proof. reflexivity. Qed.

Example format_08X_ex1 : format_08X 255 = "000000FF".
Proof. reflexivity. Qed.

Example format_08X_ex2 : format_08X 2147483648 = "80000000".
Proof. reflexivity. Qed.

Example format_08X_ex3 : format_08X (-255) = "-00000FF".
Proof. reflexivity. Qed.

Example format_08X_ex4 : format_08X 78187493520 = "1234567890".
Proof. reflexivity. Qed.

Example init_controller0 E : __init__ E 20 = Ret controller0.
Proof. reflexivity. Qed.

(** ** The hexadecimal rendering *)

Lemma hex_val_hex_char d : 0 <= d < 16 -> hex_val (hex_char d) = Some d.
Proof.
  intros [Hlo Hhi]. destruct d as [|p|p]; [reflexivity | | lia].
  do 4 (destruct p as [p|p|]; try lia; try reflexivity).
Qed.

Lemma hex_char_is_hex d : is_hex_digit (hex_char d) = true.
Proof.
  destruct d as [|p|p]; [reflexivity | | reflexivity].
  do 4 (destruct p as [p|p|]; try reflexivity).
Qed.

Lemma fixed_hex_length k n : length (fixed_hex k n) = k.
Proof.
  revert n. induction k as [|k IH]; intros n; simpl; [reflexivity|].
  rewrite length_app, IH. simpl. lia.
Qed.

Lemma fixed_hex_zero k : fixed_hex k 0 = replicate k "0"%char.
Proof.
  induction k as [|k IH]; simpl; [reflexivity|].
  rewrite Z.div_0_l, IH by lia. change (hex_char (0 mod 16)) with "0"%char.
  clear IH. induction k as [|k IH]; simpl; [reflexivity | by rewrite IH].
Qed.

(** Digits above the most significant one are zeros. *)
Lemma fixed_hex_small i j n :
  0 <= n < 16 ^ Z.of_nat j ->
  fixed_hex (i + j) n = replicate i "0"%char ++ fixed_hex j n.
Proof.
  revert n. induction j as [|j IH]; intros n Hn.
  - assert (n = 0) as -> by (simpl in Hn; lia).
    rewrite Nat.add_0_r, fixed_hex_zero. simpl. by rewrite app_nil_r.
  - rewrite Nat.add_succ_r. simpl. rewrite IH, <- app_assoc; [reflexivity|].
    rewrite Nat2Z.inj_succ, Z.pow_succ_r in Hn by lia.
    split; [apply Z.div_pos; lia | apply Z.div_lt_upper_bound; lia].
Qed.

(** The leading [a] of [a + b] digits are the digits of the quotient by
    [16 ^ b]. *)
Lemma fixed_hex_split a b n :
  0 <= n ->
  fixed_hex (a + b) n = fixed_hex a (n / 16 ^ Z.of_nat b) ++ fixed_hex b n.
Proof.
  revert n. induction b as [|b IH]; intros n Hn.
  - rewrite Nat.add_0_r. simpl. by rewrite Z.div_1_r, app_nil_r.
  - rewrite Nat.add_succ_r. simpl fixed_hex.
    rewrite IH by (apply Z.div_pos; lia).
    rewrite Nat2Z.inj_succ, Z.pow_succ_r by lia.
    rewrite Z.div_div by lia. by rewrite <- app_assoc.
Qed.

Lemma hex_digits_aux_S fuel n acc :
  hex_digits_aux (S fuel) n acc =
  if n <? 16 then hex_char n :: acc
  else hex_digits_aux fuel (n / 16) (hex_char (n mod 16) :: acc).
Proof. reflexivity. Qed.

(** With enough fuel the digits produced are the [j] significant digits:
    there is no leading zero unless [n] has a single digit. *)
Lemma hex_digits_aux_fixed fuel n acc :
  0 <= n < 16 ^ Z.of_nat (S fuel) ->
  exists j, (1 <= j <= S fuel)%nat /\ n < 16 ^ Z.of_nat j /\
            (j = 1%nat \/ 16 ^ Z.of_nat (j - 1) <= n) /\
            hex_digits_aux (S fuel) n acc = fixed_hex j n ++ acc.
Proof.
  revert n acc. induction fuel as [|fuel IH]; intros n acc Hn.
  - exists 1%nat. change (16 ^ Z.of_nat 1) with 16 in *. simpl.
    destruct (Z.ltb_spec n 16); [|lia].
    rewrite Z.mod_small by lia.
    split; [lia | split; [lia | split; [by left | reflexivity]]].
  - rewrite hex_digits_aux_S. destruct (Z.ltb_spec n 16) as [Hlt|Hge].
    + exists 1%nat. simpl. rewrite Z.mod_small by lia.
      split; [lia | split; [lia | split; [by left | reflexivity]]].
    + rewrite (Nat2Z.inj_succ (S fuel)), Z.pow_succ_r in Hn by lia.
      destruct (IH (n / 16) (hex_char (n mod 16) :: acc))
        as (j & Hj & Hlt & Hmin & Heq).
      { split; [apply Z.div_pos; lia | apply Z.div_lt_upper_bound; lia]. }
      pose proof (Z.mul_div_le n 16 ltac:(lia)) as Hdiv.
      exists (S j). split; [lia|]. split; [|split].
      * rewrite Nat2Z.inj_succ, Z.pow_succ_r by lia.
        pose proof (Z.mod_pos_bound n 16). pose proof (Z.div_mod n 16). lia.
      * right. replace (S j - 1)%nat with j by lia.
        destruct Hmin as [->|Hmin]; [change (16 ^ Z.of_nat 1) with 16; lia|].
        replace j with (S (j - 1)) at 1 by lia.
        rewrite Nat2Z.inj_succ, Z.pow_succ_r by lia. lia.
      * rewrite Heq. simpl. by rewrite <- app_assoc.
Qed.

Lemma log2_fuel_enough n :
  0 <= n -> n < 16 ^ Z.of_nat (S (Z.to_nat (Z.log2 n))).
Proof.
  intros Hn. rewrite Nat2Z.inj_succ, Z2Nat.id by apply Z.log2_nonneg.
  destruct (Z.eq_dec n 0) as [->|Hne]; [reflexivity|].
  pose proof (Z.log2_spec n ltac:(lia)) as [_ Hup].
  pose proof (Z.log2_nonneg n).
  eapply Z.lt_le_trans; [exact Hup|].
  apply Z.pow_le_mono_l. lia.
Qed.

Lemma hex_digits_fixed n :
  0 <= n ->
  exists j, (1 <= j)%nat /\ n < 16 ^ Z.of_nat j /\
            (j = 1%nat \/ 16 ^ Z.of_nat (j - 1) <= n) /\
            hex_digits n = fixed_hex j n.
Proof.
  intros Hn. unfold hex_digits.
  destruct (hex_digits_aux_fixed (Z.to_nat (Z.log2 n)) n [])
    as (j & Hj & Hlt & Hmin & Heq); [split; [lia | by apply log2_fuel_enough]|].
  exists j. rewrite Heq, app_nil_r.
  split; [lia | split; [done | split; [done | reflexivity]]].
Qed.

Lemma digits_value_snoc l c :
  digits_value (l ++ [c]) =
  match digits_value l, hex_val c with
  | Some a, Some d => Some (16 * a + d)
  | _, _ => None
  end.
Proof.
  unfold digits_value. rewrite foldl_app. simpl.
  destruct (foldl _ _ l); simpl; [|reflexivity].
  by destruct (hex_val c).
Qed.

Lemma digits_value_fixed j n :
  0 <= n -> digits_value (fixed_hex j n) = Some (n mod 16 ^ Z.of_nat j).
Proof.
  revert n. induction j as [|j IH]; intros n Hn.
  - simpl. by rewrite Z.mod_1_r.
  - simpl fixed_hex. rewrite digits_value_snoc, IH by (apply Z.div_pos; lia).
    rewrite hex_val_hex_char by (apply Z.mod_pos_bound; lia).
    rewrite Nat2Z.inj_succ, Z.pow_succ_r by lia.
    rewrite Z.rem_mul_r by lia. f_equal. lia.
Qed.

(** Reading the digits of [n] back gives [n]: the fuel of [hex_digits]
    never runs out. *)
Lemma hex_digits_value n : 0 <= n -> digits_value (hex_digits n) = Some n.
Proof.
  intros Hn. destruct (hex_digits_fixed n Hn) as (j & _ & Hlt & _ & ->).
  rewrite digits_value_fixed by done. by rewrite Z.mod_small by lia.
Qed.

Lemma hex_digits_aux_all_hex fuel n acc :
  Forall (fun c => is_hex_digit c = true) acc ->
  Forall (fun c => is_hex_digit c = true) (hex_digits_aux fuel n acc).
Proof.
  revert n acc. induction fuel as [|fuel IH]; intros n acc Hacc; [done|].
  rewrite hex_digits_aux_S. destruct (n <? 16).
  - constructor; [apply hex_char_is_hex | done].
  - apply IH. constructor; [apply hex_char_is_hex | done].
Qed.

Lemma zero_pad_all_hex w ds :
  Forall (fun c => is_hex_digit c = true) ds ->
  Forall (fun c => is_hex_digit c = true) (zero_pad w ds).
Proof.
  intros Hds. unfold zero_pad. apply Forall_app. split; [|done].
  apply Forall_replicate. reflexivity.
Qed.

Lemma zero_pad_length w ds : (w <= length (zero_pad w ds))%nat.
Proof. unfold zero_pad. rewrite length_app, length_replicate. lia. Qed.

Lemma zero_pad_fixed k j n :
  (j <= k)%nat -> 0 <= n < 16 ^ Z.of_nat j ->
  zero_pad k (fixed_hex j n) = fixed_hex k n.
Proof.
  intros Hjk Hn. unfold zero_pad. rewrite fixed_hex_length.
  rewrite <- fixed_hex_small by done. f_equal. lia.
Qed.

Lemma str_take_of_list n ds :
  str_take n (string_of_list_ascii ds) = string_of_list_ascii (take n ds).
Proof.
  revert ds. induction n as [|n IH]; intros [|c ds]; simpl; try reflexivity.
  by rewrite IH.
Qed.

Lemma string_of_list_length ds :
  String.length (string_of_list_ascii ds) = length ds.
Proof. induction ds as [|c ds IH]; simpl; [reflexivity | by rewrite IH]. Qed.

(** The rendering always has at least eight characters. *)
Lemma format_08X_length n : (8 <= String.length (format_08X n))%nat.
Proof.
  unfold format_08X. rewrite string_of_list_length.
  destruct (n <? 0); simpl.
  - pose proof (zero_pad_length 7 (hex_digits (- n))). lia.
  - apply zero_pad_length.
Qed.

Lemma str_take_length n s :
  (n <= String.length s)%nat -> String.length (str_take n s) = n.
Proof.
  revert s. induction n as [|n IH]; intros [|c s] Hs; simpl in *;
    try reflexivity; try lia.
  rewrite IH; [reflexivity | lia].
Qed.

(** The rendering of a non-negative number consists of hex digits. *)
Lemma format_08X_nonneg n :
  0 <= n ->
  Forall (fun c => is_hex_digit c = true) (list_ascii_of_string (format_08X n)).
Proof.
  intros Hn. unfold format_08X. destruct (Z.ltb_spec n 0); [lia|].
  rewrite list_ascii_of_string_of_list_ascii.
  apply zero_pad_all_hex, hex_digits_aux_all_hex. constructor.
Qed.

(** Below [2 ^ 32] the rendering is the eight digits of [n], and its first
    two characters are the two digits of the most significant byte. *)
Lemma format_08X_eight n :
  0 <= n < 2 ^ 32 ->
  format_08X n = string_of_list_ascii (fixed_hex 8 n) /\
  str_take 2 (format_08X n) = string_of_list_ascii (fixed_hex 2 (n / 2 ^ 24)).
Proof.
  intros [Hlo Hhi].
  assert (format_08X n = string_of_list_ascii (fixed_hex 8 n)) as Heq.
  { unfold format_08X. destruct (Z.ltb_spec n 0); [lia|]. f_equal.
    destruct (hex_digits_fixed n Hlo) as (j & Hj & Hlt & Hmin & ->).
    apply zero_pad_fixed; [|done].
    destruct Hmin as [->|Hmin]; [lia|].
    destruct (le_lt_dec j 8) as [Hle|Hgt]; [done|exfalso].
    assert (16 ^ 8 <= 16 ^ Z.of_nat (j - 1)) by (apply Z.pow_le_mono_r; lia).
    change (16 ^ 8) with (2 ^ 32) in *. lia. }
  split; [exact Heq|]. rewrite Heq, str_take_of_list. f_equal.
  change 8%nat with (2 + 6)%nat. rewrite fixed_hex_split by done.
  change (16 ^ Z.of_nat 6) with (2 ^ 24).
  rewrite take_app_length'; [reflexivity | by rewrite fixed_hex_length].
Qed.

(** ** Bitmask States *)

Lemma expand_hex_length cs bs :
  expand_hex cs = Some bs -> length bs = (4 * length cs)%nat.
Proof.
  revert bs. induction cs as [|c cs IH]; intros bs; simpl.
  - by intros [= <-].
  - destruct (hex_val c); simpl; [|done].
    destruct (expand_hex cs) as [bs'|]; simpl; [|done].
    intros [= <-]. simpl. rewrite (IH bs') by done. lia.
Qed.

Lemma expand_hex_all_hex cs bs :
  expand_hex cs = Some bs -> Forall (fun c => is_hex_digit c = true) cs.
Proof.
  revert bs. induction cs as [|c cs IH]; intros bs; simpl; [constructor|].
  unfold is_hex_digit at 1. destruct (hex_val c) eqn:Hc; simpl; [|done].
  destruct (expand_hex cs) as [bs'|]; simpl; [|done].
  intros _. constructor; [by rewrite Hc | by eapply IH].
Qed.

Lemma expand_hex_total cs :
  Forall (fun c => is_hex_digit c = true) cs -> is_Some (expand_hex cs).
Proof.
  induction 1 as [|c cs Hc _ [bs IH]]; simpl; [by eexists|].
  unfold is_hex_digit in Hc. destruct (hex_val c); [|done].
  rewrite IH. simpl. by eexists.
Qed.

(** A Bitmask State built from a two-character mask: both characters are hex
    digits and the state has eight flags. *)
Lemma States_init_two_chars h s :
  String.length h = 2%nat -> States_init h = Some s ->
  two_hex_digits h /\ length (states s) = 8%nat.
Proof.
  intros Hlen. unfold States_init.
  destruct (expand_hex (list_ascii_of_string h)) as [bs|] eqn:Hbs; simpl; [|done].
  intros [= <-]. simpl.
  pose proof (expand_hex_all_hex _ _ Hbs) as Hall.
  pose proof (expand_hex_length _ _ Hbs) as Hlb.
  destruct h as [|c1 [|c2 [|c3 h]]]; simpl in Hlen; try lia.
  simpl in Hall, Hlb. split; [|exact Hlb].
  exists c1, c2. inversion Hall as [|? ? H1 Hall']. inversion Hall' as [|? ? H2 _].
  done.
Qed.

Lemma str_take_2_format_length n :
  String.length (str_take 2 (format_08X n)) = 2%nat.
Proof. apply str_take_length. pose proof (format_08X_length n). lia. Qed.

(** The mask taken from the rendering of a non-negative number is accepted. *)
Lemma States_init_format n :
  0 <= n -> is_Some (States_init (str_take 2 (format_08X n))).
Proof.
  intros Hn. unfold States_init.
  destruct (expand_hex_total (list_ascii_of_string (str_take 2 (format_08X n))))
    as [bs ->]; [|by eexists].
  rewrite <- (string_of_list_ascii_of_string (format_08X n)) at 1.
  rewrite str_take_of_list, list_ascii_of_string_of_list_ascii.
  apply Forall_take. by apply format_08X_nonneg.
Qed.

Lemma reduce_or_spec seq :
  reduce_or seq = match seq with [] => None | _ => Some (existsb id seq) end.
Proof.
  destruct seq as [|x r]; simpl; [reflexivity|]. f_equal.
  revert x. induction r as [|y r IH]; intros x; simpl.
  - by rewrite orb_false_r.
  - rewrite IH. simpl. by rewrite orb_assoc.
Qed.

(** ** The dispatcher *)

Section Dispatcher.

Variable E : collaborators.

(** [command], path by path. *)
Lemma command_run cmd args w :
  command E cmd args w =
  match rainbird_encode E cmd args with
  | Raise e => (Raise e, w)
  | Ret data =>
      match ControllerCommands E !! (cmd +:+ "Request") with
      | None => (Raise (KeyError (cmd +:+ "Request")), w)
      | Some d =>
          match client_request E (length (sent w)) data (cmd_length d) with
          | None => (Ret None, after_request data d w)
          | Some raw =>
              match rainbird_decode E raw with
              | Raise e => (Raise e, after_request data d w)
              | Ret decoded =>
                  if bool_decide (str_take 2 raw <> cmd_response d)
                  then (Raise (ProtocolMismatch (cmd_response d)
                                 (str_take 2 raw) decoded),
                        after_request data d w)
                  else (Ret (Some decoded), after_request data d w)
              end
          end
      end
  end.
Proof.
  unfold command, bind, lift, command_entry, getitem, request, ret, raise.
  destruct (rainbird_encode E cmd args) as [data|e]; [|reflexivity].
  destruct (ControllerCommands E !! (cmd +:+ "Request")) as [d|]; [|reflexivity].
  simpl. destruct (client_request E _ data (cmd_length d)) as [raw|]; [|reflexivity].
  destruct (rainbird_decode E raw) as [decoded|e]; [|reflexivity].
  by destruct (bool_decide _).
Qed.

(** [_process_command] after [command] has returned a decoded response. *)
Lemma process_command_run funct cmd args w :
  _process_command E funct cmd args w =
  match command E cmd args w with
  | (Raise e, w') => (Raise e, w')
  | (Ret None, w') => (Ret VNone, w')
  | (Ret (Some resp), w') =>
      match resp !! "type" with
      | None => (Raise (KeyError "type"), w')
      | Some ty =>
          match ControllerCommands E !! (cmd +:+ "Request") with
          | None => (Raise (KeyError (cmd +:+ "Request")), w')
          | Some d =>
              match ControllerResponses E !! cmd_response d with
              | None => (Raise (KeyError (cmd_response d)), w')
              | Some expected =>
                  if field_eq_str ty expected then (funct resp, w')
                  else (Ret (VDict resp), w')
              end
          end
      end
  end.
Proof.
  unfold _process_command, bind.
  destruct (command E cmd args w) as [[[resp|]|e] w']; try reflexivity.
  unfold lift, command_entry, getitem, ret.
  destruct (resp !! "type") as [ty|]; [|reflexivity].
  destruct (ControllerCommands E !! (cmd +:+ "Request")) as [d|]; [|reflexivity].
  destruct (ControllerResponses E !! cmd_response d) as [expected|]; [|reflexivity].
  by destruct (field_eq_str ty expected).
Qed.

(** Neither [command] nor [_process_command] touches the controller or the
    clock. *)
Lemma command_frame cmd args w :
  self (snd (command E cmd args w)) = self w /\
  clock_reads (snd (command E cmd args w)) = clock_reads w.
Proof.
  rewrite command_run.
  repeat case_match; simpl; done.
Qed.

Lemma process_command_frame funct cmd args w :
  self (snd (_process_command E funct cmd args w)) = self w /\
  clock_reads (snd (_process_command E funct cmd args w)) = clock_reads w.
Proof.
  rewrite process_command_run. pose proof (command_frame cmd args w) as Hc.
  destruct (command E cmd args w) as [r w']. simpl in Hc.
  repeat case_match; simpl; done.
Qed.

(** A decoded response that [command] returns comes from the decoder. *)
Lemma command_decoded cmd args w resp w' :
  command E cmd args w = (Ret (Some resp), w') ->
  exists raw, rainbird_decode E raw = Ret resp.
Proof.
  rewrite command_run. repeat case_match; intros [= <- <-]; by eexists.
Qed.

(** What [_process_command] can return: [None], a raw decoded response, or
    the image of one under the mapping function. *)
Lemma process_command_result funct cmd args w v w' :
  _process_command E funct cmd args w = (Ret v, w') ->
  v = VNone \/
  (exists raw resp, rainbird_decode E raw = Ret resp /\ v = VDict resp) \/
  (exists raw resp, rainbird_decode E raw = Ret resp /\ funct resp = Ret v).
Proof.
  rewrite process_command_run.
  destruct (command E cmd args w) as [[[resp|]|e] w1] eqn:Hc; [| |done].
  - apply command_decoded in Hc as [raw Hraw].
    repeat case_match; intros [= ? ?]; subst; eauto 6.
  - intros [= <- <-]. by left.
Qed.

(** C1.  When [command] returns a decoded response whose "type" equals the
    type tag that the table gives for the response code the command expects,
    [_process_command] returns the mapping function applied to the response;
    when the tag differs it returns the decoded response itself. *)
Theorem process_command_projection funct cmd args w resp w' ty d expected :
  command E cmd args w = (Ret (Some resp), w') ->
  resp !! "type" = Some ty ->
  ControllerCommands E !! (cmd +:+ "Request") = Some d ->
  ControllerResponses E !! cmd_response d = Some expected ->
  (ty = FStr expected ->
   _process_command E funct cmd args w = (funct resp, w')) /\
  (ty <> FStr expected ->
   _process_command E funct cmd args w = (Ret (VDict resp), w')).
Proof.
  intros Hc Hty Hd Hexp. rewrite process_command_run, Hc, Hty, Hd, Hexp.
  split.
  - intros ->. simpl. by rewrite bool_decide_true.
  - intros Hne. destruct ty as [n|s]; simpl; [reflexivity|].
    rewrite bool_decide_false; [reflexivity | congruence].
Qed.

(** C2, as the code has it.  The response is decoded before its code is
    compared.  When the transport returns a response that the decoder
    decodes and whose first two characters differ from the response code
    the table expects for the command, [command] raises the exception that
    carries the expected code, the received code and the decoded response,
    and so does [_process_command]: no value reaches the caller.  When the
    decoder raises on the response, that exception leaves both methods
    instead, whatever the two codes are. *)
Theorem command_wrong_response funct cmd args w data d raw :
  rainbird_encode E cmd args = Ret data ->
  ControllerCommands E !! (cmd +:+ "Request") = Some d ->
  client_request E (length (sent w)) data (cmd_length d) = Some raw ->
  (forall decoded,
     rainbird_decode E raw = Ret decoded ->
     str_take 2 raw <> cmd_response d ->
     command E cmd args w =
       (Raise (ProtocolMismatch (cmd_response d) (str_take 2 raw) decoded),
        after_request data d w) /\
     _process_command E funct cmd args w =
       (Raise (ProtocolMismatch (cmd_response d) (str_take 2 raw) decoded),
        after_request data d w)) /\
  (forall e,
     rainbird_decode E raw = Raise e ->
     command E cmd args w = (Raise e, after_request data d w) /\
     _process_command E funct cmd args w = (Raise e, after_request data d w)).
Proof.
  intros Henc Hd Hreq. split.
  - intros decoded Hdec Hne.
    assert (command E cmd args w =
            (Raise (ProtocolMismatch (cmd_response d) (str_take 2 raw) decoded),
             after_request data d w)) as Hc.
    { rewrite command_run, Henc, Hd, Hreq, Hdec. by rewrite bool_decide_true. }
    split; [exact Hc|]. by rewrite process_command_run, Hc.
  - intros e Hdec.
    assert (command E cmd args w = (Raise e, after_request data d w)) as Hc.
    { by rewrite command_run, Henc, Hd, Hreq, Hdec. }
    split; [exact Hc|]. by rewrite process_command_run, Hc.
Qed.

(** C3, as the code has it.  When the transport yields no response,
    [command] returns [None] and raises nothing, and [_process_command]
    hands that [None] to its caller without applying the mapping function. *)
Theorem command_no_response funct cmd args w data d :
  rainbird_encode E cmd args = Ret data ->
  ControllerCommands E !! (cmd +:+ "Request") = Some d ->
  client_request E (length (sent w)) data (cmd_length d) = None ->
  command E cmd args w = (Ret None, after_request data d w) /\
  _process_command E funct cmd args w = (Ret VNone, after_request data d w).
Proof.
  intros Henc Hd Hreq.
  assert (command E cmd args w = (Ret None, after_request data d w)) as Hc.
  { by rewrite command_run, Henc, Hd, Hreq. }
  split; [exact Hc|]. by rewrite process_command_run, Hc.
Qed.

End Dispatcher.

(** ** The state cache *)

Section Cache.

Variable E : collaborators.

Lemma fresh_or_stale upd delay now : fresh upd delay now \/ stale upd delay now.
Proof.
  destruct upd as [t|]; [|right; by left].
  destruct (Z_le_gt_dec now (t + delay)); [left | right; right]; exists t;
    (split; [reflexivity | lia]).
Qed.

Lemma fresh_not_stale upd delay now : fresh upd delay now -> ~ stale upd delay now.
Proof. intros (t & -> & Hle) [|(t' & [= <-] & Hlt)]; [done | lia]. Qed.

Lemma check_delay_fresh upd delay w :
  fresh upd delay (clock E (clock_reads w)) ->
  _check_delay E upd delay w = (Ret false, tick w).
Proof.
  intros (t & -> & Hle). unfold _check_delay, bind, time_time, ret, tick.
  destruct (Z.ltb_spec (t + delay) (clock E (clock_reads w))); [lia | reflexivity].
Qed.

Lemma check_delay_stale upd delay w :
  stale upd delay (clock E (clock_reads w)) ->
  _check_delay E upd delay w = (Ret true, after_check upd w).
Proof.
  intros [->|(t & -> & Hlt)]; [reflexivity|].
  unfold _check_delay, bind, time_time, ret, after_check, tick.
  destruct (Z.ltb_spec (t + delay) (clock E (clock_reads w))); [reflexivity | lia].
Qed.

Lemma after_check_self upd w : self (after_check upd w) = self w.
Proof. by destruct upd. Qed.

Lemma after_check_sent upd w : sent (after_check upd w) = sent w.
Proof. by destruct upd. Qed.

(** The mapping function of the refresh yields a Bitmask State or raises. *)
Lemma states_of_response_result resp v :
  states_of_response E resp = Ret v ->
  exists n s, resp !! "activeStations" = Some (FInt n) /\
              new_States E (str_take 2 (format_08X n)) = Ret s /\
              v = VStates s.
Proof.
  unfold states_of_response, getitem.
  destruct (resp !! "activeStations") as [[n|?]|]; [|done|done].
  destruct (new_States E (str_take 2 (format_08X n))) as [s|] eqn:Hs; [|done].
  intros [= <-]. by exists n, s.
Qed.

(** [_update_irrigation_state]: the cached state is assigned exactly when
    the result is a Bitmask State. *)
Lemma update_irrigation_state_run page w :
  _update_irrigation_state E page w =
  match _process_command E (states_of_response E) "CurrentStationsActive" [page] w with
  | (Ret (VStates s), w1) => (Ret (VStates s), with_self (with_zones s (self w1)) w1)
  | (r, w1) => (r, w1)
  end.
Proof.
  unfold _update_irrigation_state, bind.
  destruct (_process_command E (states_of_response E) _ _ w) as [[v|e] w1];
    [|reflexivity].
  by destruct v.
Qed.

(** What a refresh leaves behind: the controller it found, with the new
    state in place when there is one. *)
Lemma update_irrigation_state_post page w r w1 :
  _update_irrigation_state E page w = (r, w1) ->
  clock_reads w1 = clock_reads w /\
  match r with
  | Ret (VStates s) =>
      self w1 = with_zones s (self w) /\
      exists raw resp n,
        rainbird_decode E raw = Ret resp /\
        resp !! "activeStations" = Some (FInt n) /\
        new_States E (str_take 2 (format_08X n)) = Ret s
  | _ => self w1 = self w
  end.
Proof.
  rewrite update_irrigation_state_run.
  pose proof (process_command_frame E (states_of_response E)
                "CurrentStationsActive" [page] w) as [Hself Hclock].
  destruct (_process_command E (states_of_response E) _ _ w) as [[v|e] w'] eqn:Hp;
    simpl in Hself, Hclock.
  - destruct v; intros [= <- <-]; simpl; (split; [done|]); try done.
    rewrite Hself. split; [reflexivity|].
    apply process_command_result in Hp
      as [?|[(raw & resp & _ & ?)|(raw & resp & Hraw & Hf)]]; [done|done|].
    apply states_of_response_result in Hf as (n & s' & Hn & Hs & [= <-]).
    by exists raw, resp, n.
  - by intros [= <- <-].
Qed.

(** [get_zone_state], path by path. *)
Lemma get_zone_state_fresh zone page w :
  fresh (zone_update_time (self w)) (update_delay (self w))
        (clock E (clock_reads w)) ->
  get_zone_state E zone page w = (bit_outcome (zones (self w)) zone, tick w).
Proof.
  intros Hf. unfold get_zone_state, bind at 1. simpl. unfold bind at 1.
  rewrite (check_delay_fresh _ _ _ Hf).
  unfold zones_active, bind, get_self, bit_outcome, ret, raise. simpl.
  by destruct (active _ _).
Qed.

Lemma get_zone_state_stale zone page w :
  stale (zone_update_time (self w)) (update_delay (self w))
        (clock E (clock_reads w)) ->
  get_zone_state E zone page w =
  match _update_irrigation_state E page
          (after_check (zone_update_time (self w)) w) with
  | (Raise e, w1) => (Raise e, w1)
  | (Ret (VStates s), w1) =>
      (bit_outcome (zones (self w1)) zone,
       stamped with_zone_update_time (clock E (clock_reads w1)) w1)
  | (Ret _, w1) => (Ret VNone, with_self (with_zones States_00 (self w1)) w1)
  end.
Proof.
  intros Hs. unfold get_zone_state, bind at 1. simpl. unfold bind at 1.
  rewrite (check_delay_stale _ _ _ Hs). unfold bind at 1.
  destruct (_update_irrigation_state E page _) as [[v|e] w1]; [|reflexivity].
  destruct v; try reflexivity.
  unfold zones_active, bind, get_self, bit_outcome, ret, raise, time_time,
    set_zone_update_time, modify_self, stamped. simpl.
  by destruct (active _ _).
Qed.

(** [get_rain_sensor_state], path by path. *)
Lemma get_rain_sensor_state_fresh w :
  fresh (sensor_update_time (self w)) (update_delay (self w))
        (clock E (clock_reads w)) ->
  get_rain_sensor_state E w = (Ret (value_of_flag (rain_sensor (self w))), tick w).
Proof.
  intros Hf. unfold get_rain_sensor_state, bind at 1. simpl. unfold bind at 1.
  by rewrite (check_delay_fresh _ _ _ Hf).
Qed.

Lemma get_rain_sensor_state_stale w :
  stale (sensor_update_time (self w)) (update_delay (self w))
        (clock E (clock_reads w)) ->
  get_rain_sensor_state E w =
  match _process_command E sensor_of_response "CurrentRainSensorState" []
          (after_check (sensor_update_time (self w)) w) with
  | (Raise e, w1) => (Raise e, w1)
  | (Ret (VBool b), w1) =>
      (Ret (VBool b),
       stamped with_sensor_update_time (clock E (clock_reads w1))
         (with_self (with_rain_sensor (Some b) (self w1)) w1))
  | (Ret _, w1) => (Ret VNone, with_self (with_rain_sensor None (self w1)) w1)
  end.
Proof.
  intros Hs. unfold get_rain_sensor_state, bind at 1. simpl. unfold bind at 1.
  rewrite (check_delay_stale _ _ _ Hs). unfold bind at 1 2.
  destruct (_process_command E sensor_of_response _ _ _) as [[v|e] w1];
    [|reflexivity].
  by destruct v.
Qed.

(** C4.  A cached reading is fresh exactly when there is a last-update time
    and the clock shows at most that time plus the update delay; a fresh
    read returns the cached value and leaves the controller and the list of
    requests as they were (only the clock was read), so that a call made
    within the delay of the time stamp a previous call left sends nothing. *)
Theorem cache_fresh_read zone page w :
  (forall upd delay,
     fst (_check_delay E upd delay w) = Ret false <->
     fresh upd delay (clock E (clock_reads w))) /\
  (fresh (zone_update_time (self w)) (update_delay (self w))
         (clock E (clock_reads w)) ->
   get_zone_state E zone page w = (bit_outcome (zones (self w)) zone, tick w)) /\
  (fresh (sensor_update_time (self w)) (update_delay (self w))
         (clock E (clock_reads w)) ->
   get_rain_sensor_state E w =
     (Ret (value_of_flag (rain_sensor (self w))), tick w)) /\
  (forall r w1 t zone' page',
     get_zone_state E zone page w = (r, w1) ->
     zone_update_time (self w1) = Some t ->
     clock E (clock_reads w1) <= t + update_delay (self w1) ->
     sent (snd (get_zone_state E zone' page' w1)) = sent w1).
Proof.
  split; [|split; [|split]].
  - intros upd delay. split.
    + intros Hret. destruct (fresh_or_stale upd delay (clock E (clock_reads w)))
        as [Hf|Hs]; [done|].
      by rewrite (check_delay_stale _ _ _ Hs) in Hret.
    + intros Hf. by rewrite (check_delay_fresh _ _ _ Hf).
  - apply get_zone_state_fresh.
  - apply get_rain_sensor_state_fresh.
  - intros r w1 t zone' page' _ Ht Hle.
    rewrite get_zone_state_fresh; [reflexivity|]. by exists t.
Qed.

(** C5, as the code has it.  On a stale read, when the refresh returns
    something that is not a typed result, [get_zone_state] puts
    [States("00")] in the cache (and [get_rain_sensor_state] puts [None]),
    returns [None] and leaves the last-update time as it was; when the
    refresh returns a typed result, the cache holds that result afterwards
    and the last-update time is the clock reading taken after the refresh.
    [_update_irrigation_state] itself, which is also the forced refresh of
    [irrigate_zone] and [stop_irrigation], replaces the cached state when it
    obtains a Bitmask State and leaves it as it was otherwise. *)
Theorem stale_read_refresh zone page w :
  (stale (zone_update_time (self w)) (update_delay (self w))
         (clock E (clock_reads w)) ->
   forall r w1,
     _update_irrigation_state E page
       (after_check (zone_update_time (self w)) w) = (Ret r, w1) ->
     match r with
     | VStates s =>
         zones (self (snd (get_zone_state E zone page w))) = s /\
         zone_update_time (self (snd (get_zone_state E zone page w))) =
           Some (clock E (clock_reads w1))
     | _ =>
         fst (get_zone_state E zone page w) = Ret VNone /\
         zones (self (snd (get_zone_state E zone page w))) = States_00 /\
         zone_update_time (self (snd (get_zone_state E zone page w))) =
           zone_update_time (self w)
     end) /\
  (stale (sensor_update_time (self w)) (update_delay (self w))
         (clock E (clock_reads w)) ->
   forall r w1,
     _process_command E sensor_of_response "CurrentRainSensorState" []
       (after_check (sensor_update_time (self w)) w) = (Ret r, w1) ->
     match r with
     | VBool b =>
         fst (get_rain_sensor_state E w) = Ret (VBool b) /\
         rain_sensor (self (snd (get_rain_sensor_state E w))) = Some b /\
         sensor_update_time (self (snd (get_rain_sensor_state E w))) =
           Some (clock E (clock_reads w1))
     | _ =>
         fst (get_rain_sensor_state E w) = Ret VNone /\
         rain_sensor (self (snd (get_rain_sensor_state E w))) = None /\
         sensor_update_time (self (snd (get_rain_sensor_state E w))) =
           sensor_update_time (self w)
     end) /\
  (forall r w1,
     _update_irrigation_state E page w = (r, w1) ->
     zones (self w1) = match r with Ret (VStates s) => s | _ => zones (self w) end).
Proof.
  split; [|split].
  - intros Hs r w1 Hupd. rewrite (get_zone_state_stale _ _ _ Hs), Hupd.
    apply update_irrigation_state_post in Hupd as [_ Hpost].
    destruct r; simpl; rewrite ?Hpost, ?after_check_self; try done.
    destruct Hpost as [-> _]. done.
  - intros Hs r w1 Hp. rewrite (get_rain_sensor_state_stale _ Hs), Hp.
    pose proof (process_command_frame E sensor_of_response
                  "CurrentRainSensorState" []
                  (after_check (sensor_update_time (self w)) w)) as [Hself _].
    rewrite Hp, after_check_self in Hself. simpl in Hself.
    destruct r; simpl; rewrite ?Hself; done.
  - intros r w1 Hupd.
    apply update_irrigation_state_post in Hupd as [_ Hpost].
    destruct r as [[]|]; rewrite ?Hpost; try done.
    destruct Hpost as [-> _]. done.
Qed.

(** C6, as the code has it.  [get_zone_state] returns the bit of the
    requested zone in the cached Bitmask State when the cache is fresh and
    when the refresh yields a Bitmask State (the bit is then read from that
    new state); when the refresh returns anything else, the cache is reset
    to [States("00")] and [None] is returned without reading a bit; an
    exception of the refresh is passed on.  A returned value is therefore
    [True], [False] or [None]. *)
Theorem get_zone_state_outcomes zone page w :
  (fresh (zone_update_time (self w)) (update_delay (self w))
         (clock E (clock_reads w)) ->
   fst (get_zone_state E zone page w) =
     bit_outcome (zones (self (snd (get_zone_state E zone page w)))) zone /\
   zones (self (snd (get_zone_state E zone page w))) = zones (self w)) /\
  (stale (zone_update_time (self w)) (update_delay (self w))
         (clock E (clock_reads w)) ->
   forall r w1,
     _update_irrigation_state E page
       (after_check (zone_update_time (self w)) w) = (r, w1) ->
     match r with
     | Raise e => fst (get_zone_state E zone page w) = Raise e
     | Ret (VStates s) =>
         fst (get_zone_state E zone page w) =
           bit_outcome (zones (self (snd (get_zone_state E zone page w)))) zone /\
         zones (self (snd (get_zone_state E zone page w))) = s
     | Ret _ =>
         fst (get_zone_state E zone page w) = Ret VNone /\
         zones (self (snd (get_zone_state E zone page w))) = States_00
     end) /\
  (forall v, fst (get_zone_state E zone page w) = Ret v ->
             v = VBool true \/ v = VBool false \/ v = VNone).
Proof.
  assert (forall s v, bit_outcome s zone = Ret v ->
                      v = VBool true \/ v = VBool false \/ v = VNone) as Hbit.
  { intros s v. unfold bit_outcome. destruct (active s zone) as [[|]|];
      intros [= <-]; auto. }
  split; [|split].
  - intros Hf. by rewrite (get_zone_state_fresh _ _ _ Hf).
  - intros Hs r w1 Hupd. rewrite (get_zone_state_stale _ _ _ Hs), Hupd.
    apply update_irrigation_state_post in Hupd as [_ Hpost].
    destruct r as [[]|]; simpl; try done.
    destruct Hpost as [-> _]. done.
  - intros v. destruct (fresh_or_stale (zone_update_time (self w))
      (update_delay (self w)) (clock E (clock_reads w))) as [Hf|Hs].
    + rewrite (get_zone_state_fresh _ _ _ Hf). apply Hbit.
    + rewrite (get_zone_state_stale _ _ _ Hs).
      destruct (_update_irrigation_state E page _) as [[[]|] w1]; simpl;
        try done; try (intros [= <-]; auto); apply Hbit.
Qed.

(** The fields each cache operation leaves alone. *)
Lemma get_rain_sensor_state_frame w :
  zones (self (snd (get_rain_sensor_state E w))) = zones (self w) /\
  zone_update_time (self (snd (get_rain_sensor_state E w))) =
    zone_update_time (self w).
Proof.
  destruct (fresh_or_stale (sensor_update_time (self w))
    (update_delay (self w)) (clock E (clock_reads w))) as [Hf|Hs].
  - by rewrite (get_rain_sensor_state_fresh _ Hf).
  - rewrite (get_rain_sensor_state_stale _ Hs).
    pose proof (process_command_frame E sensor_of_response
                  "CurrentRainSensorState" []
                  (after_check (sensor_update_time (self w)) w)) as [Hself _].
    rewrite after_check_self in Hself.
    destruct (_process_command E sensor_of_response _ _ _) as [[[]|] w1];
      simpl in *; by rewrite Hself.
Qed.

Lemma get_zone_state_frame zone page w :
  rain_sensor (self (snd (get_zone_state E zone page w))) =
    rain_sensor (self w) /\
  sensor_update_time (self (snd (get_zone_state E zone page w))) =
    sensor_update_time (self w).
Proof.
  destruct (fresh_or_stale (zone_update_time (self w))
    (update_delay (self w)) (clock E (clock_reads w))) as [Hf|Hs].
  - by rewrite (get_zone_state_fresh _ _ _ Hf).
  - rewrite (get_zone_state_stale _ _ _ Hs).
    destruct (_update_irrigation_state E page _) as [r w1] eqn:Hupd.
    apply update_irrigation_state_post in Hupd as [_ Hpost].
    rewrite after_check_self in Hpost.
    destruct r as [[]|]; simpl; rewrite ?Hpost; try done.
    destruct Hpost as [-> _]. done.
Qed.

(** C10.  [get_rain_sensor_state] leaves [zones] and [zone_update_time] as
    they were, and [get_zone_state] leaves [rain_sensor] and
    [sensor_update_time] as they were, whatever the outcome of the call. *)
Theorem cache_frames zone page w :
  zones (self (snd (get_rain_sensor_state E w))) = zones (self w) /\
  zone_update_time (self (snd (get_rain_sensor_state E w))) =
    zone_update_time (self w) /\
  rain_sensor (self (snd (get_zone_state E zone page w))) =
    rain_sensor (self w) /\
  sensor_update_time (self (snd (get_zone_state E zone page w))) =
    sensor_update_time (self w).
Proof.
  destruct (get_rain_sensor_state_frame w) as [Hz Ht].
  destruct (get_zone_state_frame zone page w) as [Hr Hs].
  done.
Qed.

End Cache.

(** ** The façade: actions checked against the refreshed state *)

Section Facade.

Variable E : collaborators.

(** An action whose mapping function is [lambda resp: True] returns [True],
    [None] or a raw response; only [True] passes the test [== True]. *)
Lemma action_result cmd args w r w1 :
  _process_command E (fun _ => Ret (VBool true)) cmd args w = (Ret r, w1) ->
  eq_True r = true -> r = VBool true.
Proof.
  intros Hp Heq.
  apply process_command_result in Hp
    as [->|[(raw & resp & _ & ->)|(raw & resp & _ & [= <-])]]; done.
Qed.

Lemma irrigate_zone_run zone minutes w :
  irrigate_zone E zone minutes w =
  match _process_command E (fun _ => Ret (VBool true))
          "ManuallyRunStation" [zone; minutes] w with
  | (Raise e, w1) => (Raise e, w1)
  | (Ret r, w1) =>
      match _update_irrigation_state E (_DEFAULT_PAGE E) w1 with
      | (Raise e, w2) => (Raise e, w2)
      | (Ret _, w2) =>
          if eq_True r then (bit_outcome (zones (self w2)) zone, w2)
          else (Ret (VBool false), w2)
      end
  end.
Proof.
  unfold irrigate_zone, bind at 1.
  destruct (_process_command E _ _ _ w) as [[r|e] w1]; [|reflexivity].
  unfold bind at 1.
  destruct (_update_irrigation_state E _ w1) as [[u|e] w2]; [|reflexivity].
  destruct (eq_True r); [|reflexivity].
  unfold zones_active, bind, get_self, bit_outcome, ret, raise.
  by destruct (active _ _).
Qed.

Lemma stop_irrigation_run w :
  stop_irrigation E w =
  match _process_command E (fun _ => Ret (VBool true)) "StopIrrigation" [] w with
  | (Raise e, w1) => (Raise e, w1)
  | (Ret r, w1) =>
      match _update_irrigation_state E (_DEFAULT_PAGE E) w1 with
      | (Raise e, w2) => (Raise e, w2)
      | (Ret _, w2) =>
          if eq_True r then
            match reduce_or (states (zones (self w2))) with
            | Some any => (Ret (VBool (negb any)), w2)
            | None => (Raise TypeError, w2)
            end
          else (Ret (VBool false), w2)
      end
  end.
Proof.
  unfold stop_irrigation, bind at 1.
  destruct (_process_command E _ _ _ w) as [[r|e] w1]; [|reflexivity].
  unfold bind at 1.
  destruct (_update_irrigation_state E _ w1) as [[u|e] w2]; [|reflexivity].
  destruct (eq_True r); [|reflexivity].
  unfold bind, get_self, ret, raise. by destruct (reduce_or _).
Qed.

(** The cached state a forced refresh leaves: the new one when the refresh
    yields a Bitmask State, the one found otherwise. *)
Lemma forced_refresh_zones funct cmd args w r w1 u w2 :
  _process_command E funct cmd args w = (r, w1) ->
  _update_irrigation_state E (_DEFAULT_PAGE E) w1 = (u, w2) ->
  zones (self w2) =
    match u with Ret (VStates s) => s | _ => zones (self w) end.
Proof.
  intros Hp Hupd.
  pose proof (process_command_frame E funct cmd args w) as [Hself _].
  rewrite Hp in Hself. simpl in Hself.
  apply update_irrigation_state_post in Hupd as [_ Hpost].
  destruct u as [[]|]; rewrite ?Hpost, ?Hself; try done.
  destruct Hpost as [-> _]. done.
Qed.

(** C7, as the code has it.  [irrigate_zone] returns [True] exactly when the
    dispatch of ManuallyRunStation returns the typed value [True] and the
    cached Bitmask State, as the refresh made afterwards leaves it, has the
    zone active; when the dispatch returns [True] and that state has the
    zone inactive, it returns [False].  The state in question is the
    refreshed one when the refresh yields a Bitmask State, and the one
    cached before when the refresh yields anything else. *)
Theorem irrigate_zone_result zone minutes w :
  (fst (irrigate_zone E zone minutes w) = Ret (VBool true) <->
   exists w1 u w2,
     _process_command E (fun _ => Ret (VBool true))
       "ManuallyRunStation" [zone; minutes] w = (Ret (VBool true), w1) /\
     _update_irrigation_state E (_DEFAULT_PAGE E) w1 = (Ret u, w2) /\
     active (zones (self w2)) zone = Some true) /\
  (forall w1 u w2,
     _process_command E (fun _ => Ret (VBool true))
       "ManuallyRunStation" [zone; minutes] w = (Ret (VBool true), w1) ->
     _update_irrigation_state E (_DEFAULT_PAGE E) w1 = (Ret u, w2) ->
     active (zones (self w2)) zone = Some false ->
     irrigate_zone E zone minutes w = (Ret (VBool false), w2)) /\
  (forall r w1 u w2,
     _process_command E (fun _ => Ret (VBool true))
       "ManuallyRunStation" [zone; minutes] w = (r, w1) ->
     _update_irrigation_state E (_DEFAULT_PAGE E) w1 = (Ret u, w2) ->
     zones (self w2) = match u with VStates s => s | _ => zones (self w) end).
Proof.
  split; [|split].
  - rewrite irrigate_zone_run. split.
    + destruct (_process_command E _ _ _ w) as [[r|e] w1] eqn:Hp; [|done].
      destruct (_update_irrigation_state E _ w1) as [[u|e] w2] eqn:Hupd; [|done].
      destruct (eq_True r) eqn:Hr; [|done].
      apply (action_result _ _ _ _ _ Hp) in Hr as ->.
      unfold bit_outcome. simpl.
      destruct (active (zones (self w2)) zone) as [[|]|] eqn:Hact; try done.
      intros _. by exists w1, u, w2.
    + intros (w1 & u & w2 & -> & -> & Hact). simpl.
      unfold bit_outcome. by rewrite Hact.
  - intros w1 u w2 Hp Hupd Hact. rewrite irrigate_zone_run, Hp, Hupd. simpl.
    unfold bit_outcome. by rewrite Hact.
  - intros r w1 u w2 Hp Hupd.
    rewrite (forced_refresh_zones _ _ _ _ _ _ _ _ Hp Hupd). by destruct u.
Qed.

(** C8.  [stop_irrigation] returns [True] only if the dispatch of
    StopIrrigation returns the typed value [True] and no flag of the cached
    Bitmask State is set after the forced refresh; whenever a flag of that
    state is set, it returns [False]. *)
Theorem stop_irrigation_result w :
  (fst (stop_irrigation E w) = Ret (VBool true) ->
   exists w1 u w2,
     _process_command E (fun _ => Ret (VBool true)) "StopIrrigation" [] w =
       (Ret (VBool true), w1) /\
     _update_irrigation_state E (_DEFAULT_PAGE E) w1 = (Ret u, w2) /\
     Forall (fun b => b = false) (states (zones (self w2)))) /\
  (forall r w1 u w2,
     _process_command E (fun _ => Ret (VBool true)) "StopIrrigation" [] w =
       (Ret r, w1) ->
     _update_irrigation_state E (_DEFAULT_PAGE E) w1 = (Ret u, w2) ->
     Exists (fun b => b = true) (states (zones (self w2))) ->
     stop_irrigation E w = (Ret (VBool false), w2)).
Proof.
  split.
  - rewrite stop_irrigation_run.
    destruct (_process_command E _ _ _ w) as [[r|e] w1] eqn:Hp; [|done].
    destruct (_update_irrigation_state E _ w1) as [[u|e] w2] eqn:Hupd; [|done].
    destruct (eq_True r) eqn:Hr; [|done].
    apply (action_result _ _ _ _ _ Hp) in Hr as ->.
    rewrite reduce_or_spec.
    destruct (states (zones (self w2))) as [|b l] eqn:Hst; [done|].
    simpl. intros [= Hany]. exists w1, u, w2. rewrite Hst.
    split; [done|]. split; [done|].
    apply negb_true_iff, orb_false_elim in Hany as [Hb Hl].
    constructor; [done|]. apply Forall_forall. intros x Hx.
    destruct x; [|done]. exfalso.
    apply not_true_iff_false in Hl. apply Hl, existsb_exists.
    exists true. split; [by apply list_elem_of_In | done].
  - intros r w1 u w2 Hp Hupd Hex. rewrite stop_irrigation_run, Hp, Hupd.
    destruct (eq_True r); [|done]. rewrite reduce_or_spec.
    destruct (states (zones (self w2))) as [|b l] eqn:Hst;
      [by apply Exists_nil in Hex|].
    assert (existsb id (b :: l) = true) as ->; [|done].
    apply existsb_exists. apply Exists_exists in Hex as (x & Hx & ->).
    exists true. split; [by apply list_elem_of_In | done].
Qed.

End Facade.

(** ** The cached Bitmask State along a session *)

Section Session.

Variable E : collaborators.












End Session.

(** ** The theorems at work on the sample device *)

Lemma process_command_projection_witness :
  _process_command (sample_device [Some "BF0080000000"] [])
      (states_of_response (sample_device [Some "BF0080000000"] []))
      "CurrentStationsActive" [0] (fresh_world controller0) =
    (states_of_response (sample_device [Some "BF0080000000"] [])
       (sample_decode "BF0080000000"),
     after_request "CurrentStationsActive" (mkCommand 2 "BF")
       (fresh_world controller0)) /\
  _process_command other_type_device
      (states_of_response other_type_device)
      "CurrentStationsActive" [0] (fresh_world controller0) =
    (Ret (VDict {[ "type" := FStr "OtherResponse" ]}),
     after_request "CurrentStationsActive" (mkCommand 2 "BF")
       (fresh_world controller0)).
Proof.
  split.
  - refine (proj1 (process_command_projection
                     (sample_device [Some "BF0080000000"] [])
                     (states_of_response (sample_device [Some "BF0080000000"] []))
                     "CurrentStationsActive" [0]
                     (fresh_world controller0) (sample_decode "BF0080000000") _
                     (FStr "CurrentStationsActiveResponse") (mkCommand 2 "BF")
                     "CurrentStationsActiveResponse" _ _ _ _) _);
      vm_compute; reflexivity.
  - refine (proj2 (process_command_projection other_type_device
                     (states_of_response other_type_device)
                     "CurrentStationsActive" [0]
                     (fresh_world controller0) {[ "type" := FStr "OtherResponse" ]} _
                     (FStr "OtherResponse") (mkCommand 2 "BF")
                     "CurrentStationsActiveResponse" _ _ _ _) _);
      try (vm_compute; reflexivity).
    discriminate.
Defined.

Lemma command_wrong_response_witness :
  _process_command (sample_device [Some "BE01"] [])
      (fun _ => Ret (VBool true)) "StopIrrigation" [] (fresh_world controller0) =
    (Raise (ProtocolMismatch "01" "BE" (sample_decode "BE01")),
     after_request "StopIrrigation" (mkCommand 1 "01") (fresh_world controller0)) /\
  _process_command (strict_device [Some "0040"])
      (fun _ => Ret (VBool true)) "StopIrrigation" [] (fresh_world controller0) =
    (Raise ValueError,
     after_request "StopIrrigation" (mkCommand 1 "01") (fresh_world controller0)).
Proof.
  split.
  - refine (proj2 (proj1 (command_wrong_response (sample_device [Some "BE01"] [])
                            (fun _ => Ret (VBool true)) "StopIrrigation" []
                            (fresh_world controller0) "StopIrrigation"
                            (mkCommand 1 "01") "BE01" _ _ _)
                     (sample_decode "BE01") _ _));
      try (vm_compute; reflexivity).
    discriminate.
  - refine (proj2 (proj2 (command_wrong_response (strict_device [Some "0040"])
                            (fun _ => Ret (VBool true)) "StopIrrigation" []
                            (fresh_world controller0) "StopIrrigation"
                            (mkCommand 1 "01") "0040" _ _ _)
                     ValueError _));
      vm_compute; reflexivity.
Defined.

(** A response with another code that ends before its last field: the
    decoder raises on it, and that exception, not the one for the wrong
    code, leaves the dispatch. *)
Lemma decoder_error_before_mismatch :
  client_request (strict_device [Some "0040"]) 0 "StopIrrigation" 1 =
    Some "0040" /\
  str_take 2 "0040" <> "01" /\
  command (strict_device [Some "0040"]) "StopIrrigation" []
      (fresh_world controller0) =
    (Raise ValueError,
     after_request "StopIrrigation" (mkCommand 1 "01") (fresh_world controller0)) /\
  ~ (exists expected actual decoded,
       fst (command (strict_device [Some "0040"]) "StopIrrigation" []
              (fresh_world controller0)) =
       Raise (ProtocolMismatch expected actual decoded)).
Proof.
  split; [reflexivity|]. split; [discriminate|].
  split; [vm_compute; reflexivity|].
  intros (expected & actual & decoded & He). vm_compute in He. discriminate He.
Qed.

(** No response: [command] returns [None]; nothing is raised, and
    [irrigate_zone] turns the missing response into [False]. *)
Lemma no_response_is_returned :
  client_request (sample_device [None] []) 0 "ModelAndVersion" 1 = None /\
  fst (command (sample_device [None] []) "ModelAndVersion" []
         (fresh_world controller0)) = Ret None /\
  ~ (exists e, fst (command (sample_device [None] []) "ModelAndVersion" []
                      (fresh_world controller0)) = Raise e) /\
  fst (irrigate_zone (sample_device [None] []) 0 5 (fresh_world controller0)) =
    Ret (VBool false).
Proof.
  split; [reflexivity|]. split; [vm_compute; reflexivity|].
  split; [|vm_compute; reflexivity].
  intros [e He]. vm_compute in He. discriminate He.
Qed.

Lemma command_no_response_witness :
  _process_command (sample_device [None] [])
      (fun _ => Ret (VBool true)) "ModelAndVersion" [] (fresh_world controller0) =
    (Ret VNone,
     after_request "ModelAndVersion" (mkCommand 1 "82") (fresh_world controller0)).
Proof.
  refine (proj2 (command_no_response (sample_device [None] [])
                   (fun _ => Ret (VBool true)) "ModelAndVersion" []
                   (fresh_world controller0) "ModelAndVersion" (mkCommand 1 "82")
                   _ _ _));
    vm_compute; reflexivity.
Defined.

Lemma cache_fresh_read_witness :
  get_zone_state (sample_device [] [110]) 0 0 (fresh_world controller80) =
    (Ret (VBool true), tick (fresh_world controller80)) /\
  sent (snd (get_zone_state (sample_device [Some "BF0080000000"] [100; 110]) 5 0
               (snd (get_zone_state (sample_device [Some "BF0080000000"] [100; 110])
                       0 0 (fresh_world controller0))))) =
    [("CurrentStationsActive", 2)].
Proof.
  split.
  - refine (proj1 (proj2 (cache_fresh_read (sample_device [] [110]) 0 0
                            (fresh_world controller80))) _).
    exists 100. split; [reflexivity | vm_compute; discriminate].
  - refine (proj2 (proj2 (proj2
              (cache_fresh_read (sample_device [Some "BF0080000000"] [100; 110])
                 0 0 (fresh_world controller0))))
              (fst (get_zone_state (sample_device [Some "BF0080000000"] [100; 110])
                      0 0 (fresh_world controller0)))
              (snd (get_zone_state (sample_device [Some "BF0080000000"] [100; 110])
                      0 0 (fresh_world controller0)))
              100 5 0 _ _ _);
      [vm_compute; reflexivity | vm_compute; reflexivity | vm_compute; discriminate].
Defined.

Lemma stale_read_refresh_witness :
  (fst (get_zone_state (sample_device [None] [130]) 0 0 (fresh_world controller80)) =
     Ret VNone /\
   zones (self (snd (get_zone_state (sample_device [None] [130]) 0 0
                       (fresh_world controller80)))) = States_00 /\
   zone_update_time
     (self (snd (get_zone_state (sample_device [None] [130]) 0 0
                   (fresh_world controller80)))) = Some 100) /\
  (zones (self (snd (get_zone_state (sample_device [Some "BF0040000000"] [130; 131])
                       1 0 (fresh_world controller80)))) =
     mkStates [false; true; false; false; false; false; false; false] /\
   zone_update_time
     (self (snd (get_zone_state (sample_device [Some "BF0040000000"] [130; 131])
                   1 0 (fresh_world controller80)))) = Some 131).
Proof.
  split.
  - refine (proj1 (stale_read_refresh (sample_device [None] [130]) 0 0
                     (fresh_world controller80)) _ VNone
              (snd (_update_irrigation_state (sample_device [None] [130]) 0
                      (tick (fresh_world controller80)))) _).
    + right. exists 100. split; [reflexivity | vm_compute; reflexivity].
    + vm_compute; reflexivity.
  - refine (proj1 (stale_read_refresh
                     (sample_device [Some "BF0040000000"] [130; 131]) 1 0
                     (fresh_world controller80)) _
              (VStates (mkStates [false; true; false; false; false; false; false; false]))
              (snd (_update_irrigation_state
                      (sample_device [Some "BF0040000000"] [130; 131]) 0
                      (tick (fresh_world controller80)))) _).
    + right. exists 100. split; [reflexivity | vm_compute; reflexivity].
    + vm_compute; reflexivity.
Defined.

(** A failed refresh: [None] is returned, although the zone's flag is set in
    the state cached before and clear in the state cached afterwards. *)
Lemma get_zone_state_reset_returns_None :
  fst (get_zone_state (sample_device [None] [130]) 0 0 (fresh_world controller80)) =
    Ret VNone /\
  bit_outcome (zones (self (fresh_world controller80))) 0 = Ret (VBool true) /\
  bit_outcome
    (zones (self (snd (get_zone_state (sample_device [None] [130]) 0 0
                         (fresh_world controller80))))) 0 = Ret (VBool false) /\
  fst (get_zone_state (sample_device [None] [130]) 0 0 (fresh_world controller80)) <>
    bit_outcome
      (zones (self (snd (get_zone_state (sample_device [None] [130]) 0 0
                           (fresh_world controller80))))) 0.
Proof.
  split; [vm_compute; reflexivity|]. split; [vm_compute; reflexivity|].
  split; [vm_compute; reflexivity|]. vm_compute. discriminate.
Qed.

Lemma get_zone_state_outcomes_witness :
  fst (get_zone_state (sample_device [None] [130]) 0 0 (fresh_world controller80)) =
    Ret VNone /\
  zones (self (snd (get_zone_state (sample_device [None] [130]) 0 0
                      (fresh_world controller80)))) = States_00.
Proof.
  refine (proj1 (proj2 (get_zone_state_outcomes (sample_device [None] [130]) 0 0
                          (fresh_world controller80))) _ (Ret VNone)
            (snd (_update_irrigation_state (sample_device [None] [130]) 0
                    (tick (fresh_world controller80)))) _).
  - right. exists 100. split; [reflexivity | vm_compute; reflexivity].
  - vm_compute; reflexivity.
Defined.

Lemma irrigate_zone_result_witness :
  fst (irrigate_zone (sample_device [Some "0139"; Some "BF0080000000"] []) 0 5
         (fresh_world controller0)) = Ret (VBool true) /\
  fst (irrigate_zone (sample_device [Some "0139"; Some "BF0040000000"] []) 0 5
         (fresh_world controller0)) = Ret (VBool false).
Proof.
  split.
  - apply (proj1 (irrigate_zone_result
                    (sample_device [Some "0139"; Some "BF0080000000"] []) 0 5
                    (fresh_world controller0))).
    exists (snd (_process_command
                   (sample_device [Some "0139"; Some "BF0080000000"] [])
                   (fun _ => Ret (VBool true)) "ManuallyRunStation" [0; 5]
                   (fresh_world controller0))).
    exists (VStates (mkStates [true; false; false; false; false; false; false; false])).
    exists (snd (irrigate_zone (sample_device [Some "0139"; Some "BF0080000000"] [])
                   0 5 (fresh_world controller0))).
    split; [vm_compute; reflexivity|]. split; vm_compute; reflexivity.
  - refine (f_equal fst
              (proj1 (proj2 (irrigate_zone_result
                 (sample_device [Some "0139"; Some "BF0040000000"] []) 0 5
                 (fresh_world controller0)))
                 (snd (_process_command
                         (sample_device [Some "0139"; Some "BF0040000000"] [])
                         (fun _ => Ret (VBool true)) "ManuallyRunStation" [0; 5]
                         (fresh_world controller0)))
                 (VStates (mkStates [false; true; false; false; false; false; false; false]))
                 (snd (irrigate_zone
                         (sample_device [Some "0139"; Some "BF0040000000"] [])
                         0 5 (fresh_world controller0)))
                 _ _ _));
      vm_compute; reflexivity.
Defined.

Lemma stop_irrigation_result_witness :
  Forall (fun b => b = false)
    (states (zones (self (snd (stop_irrigation
       (sample_device [Some "0140"; Some "BF0000000000"] [])
       (fresh_world controller80)))))) /\
  fst (stop_irrigation (sample_device [Some "0140"; Some "BF0004000000"] [])
         (fresh_world controller0)) = Ret (VBool false).
Proof.
  split.
  - destruct (proj1 (stop_irrigation_result
                       (sample_device [Some "0140"; Some "BF0000000000"] [])
                       (fresh_world controller80)))
      as (w1 & u & w2 & Hp & Hupd & Hall); [vm_compute; reflexivity|].
    vm_compute in Hp. injection Hp as <-.
    vm_compute in Hupd. injection Hupd as <- <-.
    vm_compute. exact Hall.
  - refine (f_equal fst
              (proj2 (stop_irrigation_result
                 (sample_device [Some "0140"; Some "BF0004000000"] [])
                 (fresh_world controller0))
                 (VBool true)
                 (snd (_process_command
                         (sample_device [Some "0140"; Some "BF0004000000"] [])
                         (fun _ => Ret (VBool true)) "StopIrrigation" []
                         (fresh_world controller0)))
                 (VStates (mkStates [false; false; false; false; false; true; false; false]))
                 (snd (stop_irrigation
                         (sample_device [Some "0140"; Some "BF0004000000"] [])
                         (fresh_world controller0)))
                 _ _ _));
      [vm_compute; reflexivity | vm_compute; reflexivity |].
    vm_compute. do 5 apply Exists_cons_tl. by apply Exists_cons_hd.
Defined.






(** A refresh that fails without a reset: [_update_irrigation_state] gets
    no response and the cached state stays as it was, zone 0 active; so it
    is after a [stop_irrigation] whose forced refresh gets no response. *)
Lemma failed_refresh_keeps_zones :
  fst (_update_irrigation_state (sample_device [None] []) 0
         (fresh_world controller80)) = Ret VNone /\
  zones (self (snd (_update_irrigation_state (sample_device [None] []) 0
                      (fresh_world controller80)))) = zones controller80 /\
  zones (self (snd (_update_irrigation_state (sample_device [None] []) 0
                      (fresh_world controller80)))) <> States_00 /\
  zones (self (snd (stop_irrigation (sample_device [Some "0140"; None] [])
                      (fresh_world controller80)))) <> States_00.
Proof.
  split; [vm_compute; reflexivity|]. split; [vm_compute; reflexivity|].
  split; vm_compute; discriminate.
Qed.

(** [irrigate_zone] returns [True] although the refresh made afterwards got
    no response and reported nothing: the zone was cached as active. *)
Lemma irrigate_zone_true_after_failed_refresh :
  irrigate_zone (sample_device [Some "0139"; None] []) 0 5
    (fresh_world controller80) =
  (Ret (VBool true),
   mkWorld controller80 [("CurrentStationsActive", 2); ("ManuallyRunStation", 4)] 0) /\
  fst (_process_command (sample_device [Some "0139"; None] [])
         (fun _ => Ret (VBool true)) "ManuallyRunStation" [0; 5]
         (fresh_world controller80)) = Ret (VBool true) /\
  fst (_update_irrigation_state (sample_device [Some "0139"; None] []) 0
         (snd (_process_command (sample_device [Some "0139"; None] [])
                 (fun _ => Ret (VBool true)) "ManuallyRunStation" [0; 5]
                 (fresh_world controller80)))) = Ret VNone.
Proof.
  split; [vm_compute; reflexivity|]. split; vm_compute; reflexivity.
Qed.

(** A response code other than the expected one during a stale read: the
    exception leaves [get_zone_state] and the cache is as it was. *)
Example get_zone_state_wrong_response :
  get_zone_state (sample_device [Some "BE01"] [130]) 0 0 (fresh_world controller80) =
  (Raise (ProtocolMismatch "BF" "BE" (sample_decode "BE01")),
   mkWorld controller80 [("CurrentStationsActive", 2)] 1).
Proof. vm_compute; reflexivity. Qed.

(** * Further properties of the module *)

(** ** Dispatch: what reaches the transport, and the wrapping methods *)

Section DispatchExtras.

Variable E : collaborators.

(** [_process_command] ends in the world [command] leaves. *)
Lemma process_command_world funct cmd args w :
  snd (_process_command E funct cmd args w) = snd (command E cmd args w).
Proof.
  rewrite process_command_run.
  destruct (command E cmd args w) as [[[resp|]|e] w']; try reflexivity.
  repeat case_match; reflexivity.
Qed.

(** The world [command] leaves once the payload and the table entry are
    there. *)
Lemma command_world cmd args w data d :
  rainbird_encode E cmd args = Ret data ->
  ControllerCommands E !! (cmd +:+ "Request") = Some d ->
  snd (command E cmd args w) = after_request data d w.
Proof. intros Henc Hd. rewrite command_run, Henc, Hd. by repeat case_match. Qed.

(** X1.  A dispatch hands exactly one request to the transport, whatever the
    transport answers and whatever becomes of the answer: once the encoder
    has produced the payload and the table has the command, the world after
    [command] and after [_process_command] is the world before with that
    one request added.  When the encoder raises or the table has no entry
    for the command, nothing is sent and the call raises. *)
Theorem dispatch_sends_once funct cmd args w :
  (forall data d,
     rainbird_encode E cmd args = Ret data ->
     ControllerCommands E !! (cmd +:+ "Request") = Some d ->
     snd (command E cmd args w) = after_request data d w /\
     snd (_process_command E funct cmd args w) = after_request data d w) /\
  ((exists e, rainbird_encode E cmd args = Raise e) \/
   ControllerCommands E !! (cmd +:+ "Request") = None ->
   snd (command E cmd args w) = w /\
   snd (_process_command E funct cmd args w) = w /\
   exists e, fst (command E cmd args w) = Raise e /\
             fst (_process_command E funct cmd args w) = Raise e).
Proof.
  split.
  - intros data d Henc Hd.
    pose proof (command_world cmd args w data d Henc Hd) as Hc.
    by rewrite process_command_world.
  - intros Hfail. rewrite process_command_run, command_run.
    destruct (rainbird_encode E cmd args) as [data|e] eqn:Henc.
    + destruct Hfail as [[e He]|Hd]; [done|]. rewrite Hd. simpl. eauto.
    + simpl. eauto.
Qed.

(** X2.  A decoded response without the key "type", or a response code that
    the table of responses does not know, is a [KeyError] of
    [_process_command]; the mapping function is not applied and the request
    has been sent. *)
Theorem process_command_key_errors funct cmd args w resp w' :
  command E cmd args w = (Ret (Some resp), w') ->
  (resp !! "type" = None ->
   _process_command E funct cmd args w = (Raise (KeyError "type"), w')) /\
  (forall ty d,
     resp !! "type" = Some ty ->
     ControllerCommands E !! (cmd +:+ "Request") = Some d ->
     ControllerResponses E !! cmd_response d = None ->
     _process_command E funct cmd args w =
       (Raise (KeyError (cmd_response d)), w')).
Proof.
  intros Hc. rewrite process_command_run, Hc. split.
  - by intros ->.
  - intros ty d -> -> ->. reflexivity.
Qed.

Lemma action_outcome_process cmd args w :
  action_outcome E (_process_command E (fun _ => Ret (VBool true)) cmd args) w.
Proof.
  split; [apply process_command_frame|].
  intros v Hv.
  destruct (_process_command E _ cmd args w) as [r w1] eqn:Hp.
  simpl in Hv. subst r.
  apply process_command_result in Hp
    as [->|[(raw & resp & Hraw & ->)|(raw & resp & _ & [= <-])]]; eauto 6.
Qed.

(** X3.  [set_program], [test_zone], [set_rain_delay] and [advance_zone]
    never return [False]: what they return is [True], [None] (no response)
    or the raw decoded response (another type of response); they leave the
    controller as it was. *)
Theorem action_methods_outcome n w :
  action_outcome E (set_program E n) w /\
  action_outcome E (test_zone E n) w /\
  action_outcome E (set_rain_delay E n) w /\
  action_outcome E (advance_zone E n) w.
Proof. split; [|split; [|split]]; apply action_outcome_process. Qed.

(** X4.  [schedule] returns the decoded response itself whenever the
    dispatch returns one, whether its type is the expected one or not. *)
Theorem schedule_returns_response param1 param2 w resp w' expected ty :
  dispatched E "CurrentSchedule" [param1; param2] w resp w' expected ->
  resp !! "type" = Some ty ->
  schedule E param1 param2 w = (Ret (VDict resp), w').
Proof.
  intros (Hc & d & Hd & Hexp) Hty. unfold schedule.
  rewrite process_command_run, Hc, Hty, Hd, Hexp.
  by destruct (field_eq_str ty expected).
Qed.

Lemma reads_field_process cmd key :
  reads_field E (_process_command E (field_of_response key) cmd []) cmd key.
Proof.
  intros w resp w' expected (Hc & d & Hd & Hexp) Hty.
  rewrite process_command_run, Hc, Hty, Hd, Hexp. simpl.
  rewrite bool_decide_true by done. unfold field_of_response, getitem.
  split; [intros f -> | intros ->]; reflexivity.
Qed.

(** X5.  [get_serial_number], [get_rain_delay] and [get_current_irrigation]
    return the field they are named after when the typed response has it,
    and raise a [KeyError] for that field when the response lacks it. *)
Theorem field_getters :
  reads_field E (get_serial_number E) "SerialNumber" "serialNumber" /\
  reads_field E (get_rain_delay E) "RainDelayGet" "delaySetting" /\
  reads_field E (get_current_irrigation E) "CurrentIrrigationState"
    "irrigationState".
Proof. split; [|split]; apply reads_field_process. Qed.

End DispatchExtras.

(** ** The cache: requests, retries and reads after a refresh *)

Section CacheExtras.

Variable E : collaborators.

(** The refresh ends with the list of requests of its dispatch. *)
Lemma update_irrigation_state_sent page w :
  sent (snd (_update_irrigation_state E page w)) =
  sent (snd (_process_command E (states_of_response E)
               "CurrentStationsActive" [page] w)).
Proof.
  rewrite update_irrigation_state_run.
  destruct (_process_command E (states_of_response E) _ _ w) as [[[]|] w1];
    reflexivity.
Qed.

(** X6.  A stale read sends exactly one request, the one of the command it
    refreshes with (CurrentStationsActive with the page for the zones,
    CurrentRainSensorState for the sensor), whatever the answer is. *)
Theorem stale_read_one_request zone page w :
  (forall data d,
     stale (zone_update_time (self w)) (update_delay (self w))
           (clock E (clock_reads w)) ->
     rainbird_encode E "CurrentStationsActive" [page] = Ret data ->
     ControllerCommands E !! "CurrentStationsActiveRequest" = Some d ->
     sent (snd (get_zone_state E zone page w)) =
       (data, cmd_length d) :: sent w) /\
  (forall data d,
     stale (sensor_update_time (self w)) (update_delay (self w))
           (clock E (clock_reads w)) ->
     rainbird_encode E "CurrentRainSensorState" [] = Ret data ->
     ControllerCommands E !! "CurrentRainSensorStateRequest" = Some d ->
     sent (snd (get_rain_sensor_state E w)) =
       (data, cmd_length d) :: sent w).
Proof.
  split; intros data d Hs Henc Hd.
  - rewrite (get_zone_state_stale _ _ _ _ Hs).
    pose proof (update_irrigation_state_sent page
                  (after_check (zone_update_time (self w)) w)) as Hsent.
    rewrite process_command_world in Hsent.
    rewrite (command_world E _ _ _ data d Henc Hd) in Hsent.
    simpl in Hsent. rewrite after_check_sent in Hsent.
    destruct (_update_irrigation_state E page _) as [[[]|] w1]; exact Hsent.
  - rewrite (get_rain_sensor_state_stale _ _ Hs).
    pose proof (process_command_world E sensor_of_response
                  "CurrentRainSensorState" []
                  (after_check (sensor_update_time (self w)) w)) as Hw.
    rewrite (command_world E _ _ _ data d Henc Hd) in Hw.
    destruct (_process_command E sensor_of_response _ _ _) as [[[]|] w1];
      simpl in *; subst w1; simpl; by rewrite after_check_sent.
Qed.

(** X7.  A stale read whose refresh yields no typed result leaves the read
    stale: with a clock that has not gone back, the next call refreshes
    again (there is no back-off at this layer). *)
Theorem failed_stale_read_stays_stale zone page w :
  (forall r w1,
     stale (zone_update_time (self w)) (update_delay (self w))
           (clock E (clock_reads w)) ->
     _update_irrigation_state E page
       (after_check (zone_update_time (self w)) w) = (Ret r, w1) ->
     (forall s, r <> VStates s) ->
     clock E (clock_reads w) <=
       clock E (clock_reads (snd (get_zone_state E zone page w))) ->
     stale (zone_update_time (self (snd (get_zone_state E zone page w))))
           (update_delay (self (snd (get_zone_state E zone page w))))
           (clock E (clock_reads (snd (get_zone_state E zone page w))))) /\
  (forall r w1,
     stale (sensor_update_time (self w)) (update_delay (self w))
           (clock E (clock_reads w)) ->
     _process_command E sensor_of_response "CurrentRainSensorState" []
       (after_check (sensor_update_time (self w)) w) = (Ret r, w1) ->
     (forall b, r <> VBool b) ->
     clock E (clock_reads w) <=
       clock E (clock_reads (snd (get_rain_sensor_state E w))) ->
     stale (sensor_update_time (self (snd (get_rain_sensor_state E w))))
           (update_delay (self (snd (get_rain_sensor_state E w))))
           (clock E (clock_reads (snd (get_rain_sensor_state E w))))).
Proof.
  split; intros r w1 Hs Hrun Hr.
  - rewrite (get_zone_state_stale _ _ _ _ Hs), Hrun.
    apply update_irrigation_state_post in Hrun as [_ Hpost].
    rewrite after_check_self in Hpost.
    assert (self w1 = self w) as Hself.
    { destruct r; try done. by destruct (Hr s). }
    assert (forall x, snd (match r with
                           | VStates s =>
                               (bit_outcome (zones (self w1)) zone,
                                stamped with_zone_update_time
                                  (clock E (clock_reads w1)) w1)
                           | _ => x
                           end) = snd x) as Hsnd.
    { intros x. destruct r; try done. by destruct (Hr s). }
    rewrite Hsnd. simpl. rewrite Hself. intros Hclock.
    destruct Hs as [Hnone|(t & Ht & Hlt)]; [by left|].
    right. exists t. split; [done | lia].
  - rewrite (get_rain_sensor_state_stale _ _ Hs), Hrun.
    pose proof (process_command_frame E sensor_of_response
                  "CurrentRainSensorState" []
                  (after_check (sensor_update_time (self w)) w)) as [Hself _].
    rewrite Hrun, after_check_self in Hself. simpl in Hself.
    assert (forall x, snd (match r with
                           | VBool b =>
                               (Ret (VBool b),
                                stamped with_sensor_update_time
                                  (clock E (clock_reads w1))
                                  (with_self (with_rain_sensor (Some b) (self w1)) w1))
                           | _ => x
                           end) = snd x) as Hsnd.
    { intros x. destruct r; try done. by destruct (Hr b). }
    rewrite Hsnd. simpl. rewrite Hself. intros Hclock.
    destruct Hs as [Hnone|(t & Ht & Hlt)]; [by left|].
    right. exists t. split; [done | lia].
Qed.

(** X8.  After a stale read whose refresh yields the Bitmask State [s], a
    read made while the clock shows at most the time of the stamp plus the
    update delay returns the flag of any zone in [s] and sends nothing. *)
Theorem fresh_read_after_refresh zone page zone' page' w s w1 :
  stale (zone_update_time (self w)) (update_delay (self w))
        (clock E (clock_reads w)) ->
  _update_irrigation_state E page
    (after_check (zone_update_time (self w)) w) = (Ret (VStates s), w1) ->
  clock E (S (clock_reads w1)) <=
    clock E (clock_reads w1) + update_delay (self w) ->
  get_zone_state E zone' page' (snd (get_zone_state E zone page w)) =
    (bit_outcome s zone', tick (snd (get_zone_state E zone page w))).
Proof.
  intros Hs Hupd Hle.
  assert (snd (get_zone_state E zone page w) =
          stamped with_zone_update_time (clock E (clock_reads w1)) w1) as Hw.
  { by rewrite (get_zone_state_stale _ _ _ _ Hs), Hupd. }
  apply update_irrigation_state_post in Hupd as [_ [Hself _]].
  rewrite after_check_self in Hself.
  rewrite get_zone_state_fresh; rewrite Hw; simpl; rewrite Hself; simpl.
  - reflexivity.
  - eexists. split; [reflexivity | exact Hle].
Qed.

(** X9.  After a stale read of the rain sensor that obtains the flag [b], a
    read made within the update delay of the stamp returns [b] again and
    sends nothing. *)
Theorem sensor_read_after_refresh w b w1 :
  stale (sensor_update_time (self w)) (update_delay (self w))
        (clock E (clock_reads w)) ->
  _process_command E sensor_of_response "CurrentRainSensorState" []
    (after_check (sensor_update_time (self w)) w) = (Ret (VBool b), w1) ->
  clock E (S (clock_reads w1)) <=
    clock E (clock_reads w1) + update_delay (self w) ->
  fst (get_rain_sensor_state E w) = Ret (VBool b) /\
  get_rain_sensor_state E (snd (get_rain_sensor_state E w)) =
    (Ret (VBool b), tick (snd (get_rain_sensor_state E w))).
Proof.
  intros Hs Hrun Hle.
  pose proof (process_command_frame E sensor_of_response
                "CurrentRainSensorState" []
                (after_check (sensor_update_time (self w)) w)) as [Hself _].
  rewrite Hrun, after_check_self in Hself. simpl in Hself.
  rewrite (get_rain_sensor_state_stale _ _ Hs), Hrun. simpl.
  split; [reflexivity|].
  rewrite get_rain_sensor_state_fresh; simpl; rewrite Hself; simpl.
  - reflexivity.
  - eexists. split; [reflexivity | exact Hle].
Qed.

(** X10.  An exception that leaves [get_rain_sensor_state], and an
    exception of the refresh that leaves [get_zone_state], find the
    controller as it was before the call: the cache is neither reset nor
    stamped. *)
Theorem cache_read_exception_keeps_controller zone page w :
  (forall e, fst (get_rain_sensor_state E w) = Raise e ->
             self (snd (get_rain_sensor_state E w)) = self w) /\
  (forall e w1,
     stale (zone_update_time (self w)) (update_delay (self w))
           (clock E (clock_reads w)) ->
     _update_irrigation_state E page
       (after_check (zone_update_time (self w)) w) = (Raise e, w1) ->
     get_zone_state E zone page w = (Raise e, w1) /\ self w1 = self w).
Proof.
  split.
  - intros e. destruct (fresh_or_stale (sensor_update_time (self w))
      (update_delay (self w)) (clock E (clock_reads w))) as [Hf|Hs].
    + by rewrite (get_rain_sensor_state_fresh _ _ Hf).
    + rewrite (get_rain_sensor_state_stale _ _ Hs).
      pose proof (process_command_frame E sensor_of_response
                    "CurrentRainSensorState" []
                    (after_check (sensor_update_time (self w)) w)) as [Hself _].
      rewrite after_check_self in Hself.
      destruct (_process_command E sensor_of_response _ _ _) as [[[]|] w1];
        simpl; done.
  - intros e w1 Hs Hupd. rewrite (get_zone_state_stale _ _ _ _ Hs), Hupd.
    split; [reflexivity|].
    apply update_irrigation_state_post in Hupd as [_ Hpost].
    by rewrite after_check_self in Hpost.
Qed.

End CacheExtras.

(** ** The actions with a forced refresh *)

Section FacadeExtras.

Variable E : collaborators.

(** A forced refresh can change the cached state and nothing else. *)
Lemma forced_refresh_self funct cmd args w :
  self (snd (_update_irrigation_state E (_DEFAULT_PAGE E)
               (snd (_process_command E funct cmd args w)))) = self w \/
  exists s,
    self (snd (_update_irrigation_state E (_DEFAULT_PAGE E)
                 (snd (_process_command E funct cmd args w)))) =
    with_zones s (self w).
Proof.
  pose proof (process_command_frame E funct cmd args w) as [Hself _].
  destruct (_update_irrigation_state E _ _) as [r w2] eqn:Hupd.
  apply update_irrigation_state_post in Hupd as [_ Hpost].
  rewrite Hself in Hpost. simpl.
  destruct r as [[]|]; try (by left).
  destruct Hpost as [-> _]. right. by eexists.
Qed.

Lemma irrigate_zone_self zone minutes w :
  self (snd (irrigate_zone E zone minutes w)) = self w \/
  exists s, self (snd (irrigate_zone E zone minutes w)) = with_zones s (self w).
Proof.
  rewrite irrigate_zone_run.
  pose proof (forced_refresh_self (fun _ => Ret (VBool true))
                "ManuallyRunStation" [zone; minutes] w) as Hstep.
  pose proof (process_command_frame E (fun _ => Ret (VBool true))
                "ManuallyRunStation" [zone; minutes] w) as [Hself _].
  destruct (_process_command E _ _ _ w) as [[r|e] w1];
    simpl in *; [|by left].
  destruct (_update_irrigation_state E _ w1) as [[u|e] w2]; simpl in *;
    [|done]. by destruct (eq_True r).
Qed.

Lemma stop_irrigation_self w :
  self (snd (stop_irrigation E w)) = self w \/
  exists s, self (snd (stop_irrigation E w)) = with_zones s (self w).
Proof.
  rewrite stop_irrigation_run.
  pose proof (forced_refresh_self (fun _ => Ret (VBool true))
                "StopIrrigation" [] w) as Hstep.
  pose proof (process_command_frame E (fun _ => Ret (VBool true))
                "StopIrrigation" [] w) as [Hself _].
  destruct (_process_command E _ _ _ w) as [[r|e] w1];
    simpl in *; [|by left].
  destruct (_update_irrigation_state E _ w1) as [[u|e] w2]; simpl in *;
    [|done]. destruct (eq_True r); [|done]. by destruct (reduce_or _).
Qed.

(** X11.  [irrigate_zone] and [stop_irrigation] change nothing of the
    controller but the cached zone state: the forced refresh sets no time
    stamp, so the staleness of the zone cache is as before the call, and the
    sensor cache and the update delay are untouched. *)
Theorem forced_refresh_frames zone minutes w :
  (zone_update_time (self (snd (irrigate_zone E zone minutes w))) =
     zone_update_time (self w) /\
   rain_sensor (self (snd (irrigate_zone E zone minutes w))) =
     rain_sensor (self w) /\
   sensor_update_time (self (snd (irrigate_zone E zone minutes w))) =
     sensor_update_time (self w) /\
   update_delay (self (snd (irrigate_zone E zone minutes w))) =
     update_delay (self w)) /\
  (zone_update_time (self (snd (stop_irrigation E w))) =
     zone_update_time (self w) /\
   rain_sensor (self (snd (stop_irrigation E w))) = rain_sensor (self w) /\
   sensor_update_time (self (snd (stop_irrigation E w))) =
     sensor_update_time (self w) /\
   update_delay (self (snd (stop_irrigation E w))) = update_delay (self w)).
Proof.
  split.
  - destruct (irrigate_zone_self zone minutes w) as [->|[s ->]]; done.
  - destruct (stop_irrigation_self w) as [->|[s ->]]; done.
Qed.

(** The requests of an action followed by the forced refresh. *)
Lemma action_then_refresh_sent cmd args w d1 e1 d2 e2 r w1 :
  rainbird_encode E cmd args = Ret d1 ->
  ControllerCommands E !! (cmd +:+ "Request") = Some e1 ->
  rainbird_encode E "CurrentStationsActive" [_DEFAULT_PAGE E] = Ret d2 ->
  ControllerCommands E !! "CurrentStationsActiveRequest" = Some e2 ->
  _process_command E (fun _ => Ret (VBool true)) cmd args w = (r, w1) ->
  w1 = after_request d1 e1 w /\
  sent (snd (_update_irrigation_state E (_DEFAULT_PAGE E) w1)) =
    (d2, cmd_length e2) :: (d1, cmd_length e1) :: sent w.
Proof.
  intros Henc1 Hd1 Henc2 Hd2 Hp.
  assert (w1 = after_request d1 e1 w) as ->.
  { pose proof (process_command_world E (fun _ => Ret (VBool true)) cmd args w)
      as Hw. rewrite Hp in Hw. simpl in Hw. rewrite Hw.
    by apply command_world. }
  split; [reflexivity|].
  rewrite update_irrigation_state_sent, process_command_world.
  by rewrite (command_world E _ _ _ d2 e2 Henc2 Hd2).
Qed.

(** X12.  [irrigate_zone] sends the request of ManuallyRunStation first
    and, whenever that dispatch returns (with [True], with [None] or with a
    raw response), the request of CurrentStationsActive for the default page
    second; when the first dispatch raises, the exception leaves the method
    and no refresh is requested. *)
Theorem irrigate_zone_requests zone minutes w d1 e1 d2 e2 :
  rainbird_encode E "ManuallyRunStation" [zone; minutes] = Ret d1 ->
  ControllerCommands E !! "ManuallyRunStationRequest" = Some e1 ->
  rainbird_encode E "CurrentStationsActive" [_DEFAULT_PAGE E] = Ret d2 ->
  ControllerCommands E !! "CurrentStationsActiveRequest" = Some e2 ->
  match fst (_process_command E (fun _ => Ret (VBool true))
               "ManuallyRunStation" [zone; minutes] w) with
  | Raise e =>
      irrigate_zone E zone minutes w = (Raise e, after_request d1 e1 w)
  | Ret _ =>
      sent (snd (irrigate_zone E zone minutes w)) =
        (d2, cmd_length e2) :: (d1, cmd_length e1) :: sent w
  end.
Proof.
  intros Henc1 Hd1 Henc2 Hd2. rewrite irrigate_zone_run.
  destruct (_process_command E _ _ _ w) as [r w1] eqn:Hp.
  destruct (action_then_refresh_sent _ _ _ _ _ _ _ _ _ Henc1 Hd1 Henc2 Hd2 Hp)
    as [-> Hsent].
  destruct r as [r|e]; simpl; [|reflexivity].
  destruct (_update_irrigation_state E _ _) as [[u|e] w2]; simpl in *;
    [|done]. by destruct (eq_True r).
Qed.

(** X13.  [stop_irrigation] does the same with the request of
    StopIrrigation. *)
Theorem stop_irrigation_requests w d1 e1 d2 e2 :
  rainbird_encode E "StopIrrigation" [] = Ret d1 ->
  ControllerCommands E !! "StopIrrigationRequest" = Some e1 ->
  rainbird_encode E "CurrentStationsActive" [_DEFAULT_PAGE E] = Ret d2 ->
  ControllerCommands E !! "CurrentStationsActiveRequest" = Some e2 ->
  match fst (_process_command E (fun _ => Ret (VBool true))
               "StopIrrigation" [] w) with
  | Raise e => stop_irrigation E w = (Raise e, after_request d1 e1 w)
  | Ret _ =>
      sent (snd (stop_irrigation E w)) =
        (d2, cmd_length e2) :: (d1, cmd_length e1) :: sent w
  end.
Proof.
  intros Henc1 Hd1 Henc2 Hd2. rewrite stop_irrigation_run.
  destruct (_process_command E _ _ _ w) as [r w1] eqn:Hp.
  destruct (action_then_refresh_sent _ _ _ _ _ _ _ _ _ Henc1 Hd1 Henc2 Hd2 Hp)
    as [-> Hsent].
  destruct r as [r|e]; simpl; [|reflexivity].
  destruct (_update_irrigation_state E _ _) as [[u|e] w2]; simpl in *;
    [|done]. destruct (eq_True r); [|done]. by destruct (reduce_or _).
Qed.

(** X14.  When the action does not come back with [True] (no response, or a
    response of another type) and the forced refresh returns, both methods
    return [False], whatever the cache shows and whatever the zone asked
    for: the cached state is not consulted. *)
Theorem failed_action_is_False zone minutes w :
  (forall r w1 u w2,
     _process_command E (fun _ => Ret (VBool true))
       "ManuallyRunStation" [zone; minutes] w = (Ret r, w1) ->
     r <> VBool true ->
     _update_irrigation_state E (_DEFAULT_PAGE E) w1 = (Ret u, w2) ->
     irrigate_zone E zone minutes w = (Ret (VBool false), w2)) /\
  (forall r w1 u w2,
     _process_command E (fun _ => Ret (VBool true)) "StopIrrigation" [] w =
       (Ret r, w1) ->
     r <> VBool true ->
     _update_irrigation_state E (_DEFAULT_PAGE E) w1 = (Ret u, w2) ->
     stop_irrigation E w = (Ret (VBool false), w2)).
Proof.
  split; intros r w1 u w2 Hp Hr Hupd.
  - rewrite irrigate_zone_run, Hp, Hupd.
    destruct (eq_True r) eqn:Heq; [|reflexivity].
    by apply (action_result _ _ _ _ _ _ Hp) in Heq.
  - rewrite stop_irrigation_run, Hp, Hupd.
    destruct (eq_True r) eqn:Heq; [|reflexivity].
    by apply (action_result _ _ _ _ _ _ Hp) in Heq.
Qed.

End FacadeExtras.

(** ** Invariants of a session *)

Section SessionExtras.

Variable E : collaborators.

Lemma get_zone_state_self zone page w :
  self (snd (get_zone_state E zone page w)) = self w \/
  self (snd (get_zone_state E zone page w)) = with_zones States_00 (self w) \/
  exists s t, self (snd (get_zone_state E zone page w)) =
              with_zone_update_time (Some t) (with_zones s (self w)).
Proof.
  destruct (fresh_or_stale (zone_update_time (self w))
    (update_delay (self w)) (clock E (clock_reads w))) as [Hf|Hs].
  - rewrite (get_zone_state_fresh _ _ _ _ Hf). by left.
  - rewrite (get_zone_state_stale _ _ _ _ Hs).
    destruct (_update_irrigation_state E page _) as [r w1] eqn:Hupd.
    apply update_irrigation_state_post in Hupd as [_ Hpost].
    rewrite after_check_self in Hpost.
    destruct r as [[]|]; simpl; rewrite ?Hpost; try (by left);
      try (right; by left).
    destruct Hpost as [-> _]. right; right. by eexists _, _.
Qed.

Lemma get_rain_sensor_state_self w :
  self (snd (get_rain_sensor_state E w)) = self w \/
  self (snd (get_rain_sensor_state E w)) = with_rain_sensor None (self w) \/
  exists b t, self (snd (get_rain_sensor_state E w)) =
              with_sensor_update_time (Some t)
                (with_rain_sensor (Some b) (self w)).
Proof.
  destruct (fresh_or_stale (sensor_update_time (self w))
    (update_delay (self w)) (clock E (clock_reads w))) as [Hf|Hs].
  - rewrite (get_rain_sensor_state_fresh _ _ Hf). by left.
  - rewrite (get_rain_sensor_state_stale _ _ Hs).
    pose proof (process_command_frame E sensor_of_response
                  "CurrentRainSensorState" []
                  (after_check (sensor_update_time (self w)) w)) as [Hself _].
    rewrite after_check_self in Hself.
    destruct (_process_command E sensor_of_response _ _ _) as [[[]|] w1];
      simpl in *; rewrite Hself; try (by left); try (right; by left).
    right; right. by eexists _, _.
Qed.

(** What a call can do to the controller. *)
Lemma perform_self c w :
  self (perform E c w) = self w \/
  (exists s, self (perform E c w) = with_zones s (self w)) \/
  (exists s t, self (perform E c w) =
               with_zone_update_time (Some t) (with_zones s (self w))) \/
  self (perform E c w) = with_rain_sensor None (self w) \/
  (exists b t, self (perform E c w) =
               with_sensor_update_time (Some t)
                 (with_rain_sensor (Some b) (self w))).
Proof.
  destruct c as [|zone page|zone minutes| |funct cmd args|cmd args]; simpl.
  - destruct (get_rain_sensor_state_self w) as [H|[H|H]];
      [by left | by do 3 right; left | by do 4 right].
  - destruct (get_zone_state_self zone page w) as [H|[H|H]];
      [by left | right; left; by eexists | right; right; by left].
  - destruct (irrigate_zone_self E zone minutes w) as [H|H];
      [by left | right; by left].
  - destruct (stop_irrigation_self E w) as [H|H];
      [by left | right; by left].
  - left. apply process_command_frame.
  - left. apply command_frame.
Qed.

(** X15.  No call changes [update_delay]: through any session it is the
    value the controller was constructed with. *)
Theorem update_delay_constant cs w :
  update_delay (self (session E cs w)) = update_delay (self w).
Proof.
  revert w. induction cs as [|c cs IH]; intros w; [reflexivity|].
  simpl. rewrite IH.
  destruct (perform_self c w)
    as [->|[[s ->]|[(s & t & ->)|[->|(b & t & ->)]]]]; reflexivity.
Qed.

Lemma sensor_stamped_perform c w :
  sensor_stamped (self w) -> sensor_stamped (self (perform E c w)).
Proof.
  unfold sensor_stamped. intros Hw.
  destruct (perform_self c w)
    as [->|[[s ->]|[(s & t & ->)|[->|(b & t & ->)]]]]; simpl; done.
Qed.

(** X16.  Through any session of a freshly constructed controller, a rain
    sensor value in the cache comes with a time stamp: [rain_sensor] is
    [None] as long as [sensor_update_time] is [None]. *)
Theorem sensor_value_has_stamp delay c cs :
  __init__ E delay = Ret c ->
  sensor_stamped (self (session E cs (fresh_world c))).
Proof.
  intros Hinit.
  assert (sensor_stamped (self (fresh_world c))) as Hw.
  { unfold __init__, new_States in Hinit. simpl in Hinit.
    injection Hinit as <-. intros Hnone. by destruct Hnone. }
  revert Hw. generalize (fresh_world c). clear Hinit.
  induction cs as [|x cs IH]; intros w Hw; [done|].
  simpl. apply IH. by apply sensor_stamped_perform.
Qed.

End SessionExtras.

(** ** The mask of the refresh *)

Lemma digits_value_zeros k ds :
  digits_value (replicate k "0"%char ++ ds) = digits_value ds.
Proof.
  unfold digits_value. rewrite foldl_app. f_equal.
  induction k as [|k IH]; [reflexivity | exact IH].
Qed.

(** X17.  The rendering ["%08X" % n] of a non-negative [n] reads back as
    [n]; it has eight characters when [n] is below [2 ^ 32]. *)
Theorem format_08X_round_trip n :
  0 <= n ->
  digits_value (list_ascii_of_string (format_08X n)) = Some n /\
  (n < 2 ^ 32 -> String.length (format_08X n) = 8%nat).
Proof.
  intros Hn. split.
  - unfold format_08X. destruct (Z.ltb_spec n 0); [lia|].
    rewrite list_ascii_of_string_of_list_ascii. unfold zero_pad.
    rewrite digits_value_zeros. by apply hex_digits_value.
  - intros Hlt. destruct (format_08X_eight n (conj Hn Hlt)) as [-> _].
    by rewrite string_of_list_length, fixed_hex_length.
Qed.

(** X18.  Of an "activeStations" below [2 ^ 32] the refresh keeps the most
    significant byte only: the mask it builds the Bitmask State from reads
    back as [n / 2 ^ 24], so two responses that agree on that byte give the
    same state, whatever their lower 24 bits are; the state has eight
    flags. *)
Theorem refresh_keeps_top_byte E resp n :
  resp !! "activeStations" = Some (FInt n) ->
  0 <= n < 2 ^ 32 ->
  digits_value (list_ascii_of_string (str_take 2 (format_08X n))) =
    Some (n / 2 ^ 24) /\
  (exists s, states_of_response E resp = Ret (VStates s) /\
             length (states s) = 8%nat) /\
  (forall resp' m,
     resp' !! "activeStations" = Some (FInt m) ->
     0 <= m < 2 ^ 32 ->
     n / 2 ^ 24 = m / 2 ^ 24 ->
     states_of_response E resp' = states_of_response E resp).
Proof.
  intros Hn Hrange.
  destruct (format_08X_eight n Hrange) as [_ Htake].
  split; [|split].
  - rewrite Htake, list_ascii_of_string_of_list_ascii, digits_value_fixed
      by (apply Z.div_pos; lia).
    f_equal. apply Z.mod_small. split; [apply Z.div_pos; lia|].
    apply Z.div_lt_upper_bound; [lia|]. change (2 ^ 24 * 16 ^ Z.of_nat 2) with (2 ^ 32).
    lia.
  - destruct (States_init_format n ltac:(lia)) as [s Hs].
    exists s. unfold states_of_response, getitem, new_States.
    rewrite Hn, Hs. split; [reflexivity|].
    eapply States_init_two_chars; [apply str_take_2_format_length | exact Hs].
  - intros resp' m Hm Hmrange Heq.
    destruct (format_08X_eight m Hmrange) as [_ Htake'].
    unfold states_of_response, getitem. by rewrite Hn, Hm, Htake, Htake', Heq.
Qed.

(** ** The further properties at work on the sample devices *)

Lemma dispatch_sends_once_witness :
  snd (_process_command (sample_device [Some "BE01"] [])
         (fun _ => Ret (VBool true)) "StopIrrigation" []
         (fresh_world controller0)) =
    after_request "StopIrrigation" (mkCommand 1 "01") (fresh_world controller0) /\
  snd (command (wrapper_device [Some "0100"]) "StopIrrigation" []
         (fresh_world controller0)) = fresh_world controller0.
Proof.
  split.
  - refine (proj2 (proj1 (dispatch_sends_once (sample_device [Some "BE01"] [])
                            (fun _ => Ret (VBool true)) "StopIrrigation" []
                            (fresh_world controller0))
                     "StopIrrigation" (mkCommand 1 "01") _ _));
      vm_compute; reflexivity.
  - refine (proj1 (proj2 (dispatch_sends_once (wrapper_device [Some "0100"])
                            (fun _ => Ret (VBool true)) "StopIrrigation" []
                            (fresh_world controller0)) _)).
    left. exists (CodecError "StopIrrigation"). vm_compute; reflexivity.
Defined.

Lemma process_command_key_errors_witness :
  _process_command untyped_device (fun _ => Ret (VBool true))
      "ModelAndVersion" [] (fresh_world controller0) =
    (Raise (KeyError "type"),
     after_request "ModelAndVersion" (mkCommand 1 "82") (fresh_world controller0)) /\
  _process_command (mistyped_device "9200") (fun _ => Ret (VBool true))
      "CurrentDate" [] (fresh_world controller0) =
    (Raise (KeyError "92"),
     after_request "CurrentDate" (mkCommand 1 "92") (fresh_world controller0)).
Proof.
  split.
  - refine (proj1 (process_command_key_errors untyped_device
                     (fun _ => Ret (VBool true)) "ModelAndVersion" []
                     (fresh_world controller0) {[ "data" := FStr "8200" ]} _ _) _);
      vm_compute; reflexivity.
  - refine (proj2 (process_command_key_errors (mistyped_device "9200")
                     (fun _ => Ret (VBool true)) "CurrentDate" []
                     (fresh_world controller0)
                     {[ "type" := FStr "OtherResponse" ]} _ _)
              (FStr "OtherResponse") (mkCommand 1 "92") _ _ _);
      vm_compute; reflexivity.
Defined.

Lemma schedule_returns_response_witness :
  schedule (mistyped_device "A000") 0 1 (fresh_world controller0) =
    (Ret (VDict {[ "type" := FStr "OtherResponse" ]}),
     after_request "CurrentSchedule" (mkCommand 3 "A0") (fresh_world controller0)) /\
  schedule (wrapper_device [Some "A000"]) 0 1 (fresh_world controller0) =
    (Ret (VDict {[ "type" := FStr "CurrentScheduleResponse" ]}),
     after_request "CurrentSchedule" (mkCommand 3 "A0") (fresh_world controller0)).
Proof.
  split.
  - refine (schedule_returns_response (mistyped_device "A000") 0 1
              (fresh_world controller0) _ _ "CurrentScheduleResponse"
              (FStr "OtherResponse") _ _); [|vm_compute; reflexivity].
    split; [vm_compute; reflexivity|].
    exists (mkCommand 3 "A0"). split; vm_compute; reflexivity.
  - refine (schedule_returns_response (wrapper_device [Some "A000"]) 0 1
              (fresh_world controller0) _ _ "CurrentScheduleResponse"
              (FStr "CurrentScheduleResponse") _ _); [|vm_compute; reflexivity].
    split; [vm_compute; reflexivity|].
    exists (mkCommand 3 "A0"). split; vm_compute; reflexivity.
Defined.

Lemma field_getters_witness :
  get_serial_number (wrapper_device [Some "85000000000001E240"])
      (fresh_world controller0) =
    (Ret (VInt 123456),
     after_request "SerialNumber" (mkCommand 1 "85") (fresh_world controller0)) /\
  get_serial_number (wrapper_device [Some "8500"]) (fresh_world controller0) =
    (Raise (KeyError "serialNumber"),
     after_request "SerialNumber" (mkCommand 1 "85") (fresh_world controller0)).
Proof.
  split.
  - refine (proj1 (proj1 (field_getters
                            (wrapper_device [Some "85000000000001E240"]))
                     (fresh_world controller0)
                     (wrapper_decode "85000000000001E240") _
                     "SerialNumberResponse" _ _) (FInt 123456) _);
      try (vm_compute; reflexivity).
    split; [vm_compute; reflexivity|].
    exists (mkCommand 1 "85"). split; vm_compute; reflexivity.
  - refine (proj2 (proj1 (field_getters (wrapper_device [Some "8500"]))
                     (fresh_world controller0) (wrapper_decode "8500") _
                     "SerialNumberResponse" _ _) _);
      try (vm_compute; reflexivity).
    split; [vm_compute; reflexivity|].
    exists (mkCommand 1 "85"). split; vm_compute; reflexivity.
Defined.

Lemma stale_read_one_request_witness :
  sent (snd (get_zone_state (sample_device [None] [130]) 0 0
               (fresh_world controller80))) = [("CurrentStationsActive", 2)] /\
  sent (snd (get_rain_sensor_state (sample_device [Some "BE01"] [130; 131])
               (fresh_world controller80))) = [("CurrentRainSensorState", 1)].
Proof.
  split.
  - refine (proj1 (stale_read_one_request (sample_device [None] [130]) 0 0
                     (fresh_world controller80))
              "CurrentStationsActive" (mkCommand 2 "BF") _ _ _);
      [|vm_compute; reflexivity|vm_compute; reflexivity].
    right. exists 100. split; [reflexivity | vm_compute; reflexivity].
  - refine (proj2 (stale_read_one_request
                     (sample_device [Some "BE01"] [130; 131]) 0 0
                     (fresh_world controller80))
              "CurrentRainSensorState" (mkCommand 1 "BE") _ _ _);
      [|vm_compute; reflexivity|vm_compute; reflexivity].
    right. exists 100. split; [reflexivity | vm_compute; reflexivity].
Defined.

Lemma failed_stale_read_stays_stale_witness :
  stale (Some 100) 20 140.
Proof.
  refine (proj1 (failed_stale_read_stays_stale (sample_device [None] [130; 140])
                   0 0 (fresh_world controller80))
            VNone
            (snd (_update_irrigation_state (sample_device [None] [130; 140]) 0
                    (tick (fresh_world controller80)))) _ _ _ _).
  - right. exists 100. split; [reflexivity | vm_compute; reflexivity].
  - vm_compute; reflexivity.
  - discriminate.
  - vm_compute; discriminate.
Defined.

Lemma fresh_read_after_refresh_witness :
  fst (get_zone_state (sample_device [Some "BF0040000000"] [130; 131; 140]) 1 0
         (snd (get_zone_state (sample_device [Some "BF0040000000"] [130; 131; 140])
                 0 0 (fresh_world controller80)))) = Ret (VBool true).
Proof.
  refine (f_equal fst
            (fresh_read_after_refresh
               (sample_device [Some "BF0040000000"] [130; 131; 140]) 0 0 1 0
               (fresh_world controller80)
               (mkStates [false; true; false; false; false; false; false; false])
               (snd (_update_irrigation_state
                       (sample_device [Some "BF0040000000"] [130; 131; 140]) 0
                       (tick (fresh_world controller80)))) _ _ _)).
  - right. exists 100. split; [reflexivity | vm_compute; reflexivity].
  - vm_compute; reflexivity.
  - vm_compute; discriminate.
Defined.

Lemma sensor_read_after_refresh_witness :
  get_rain_sensor_state (sample_device [Some "BE01"] [130; 131; 140])
    (snd (get_rain_sensor_state (sample_device [Some "BE01"] [130; 131; 140])
            (fresh_world controller80))) =
  (Ret (VBool true),
   tick (snd (get_rain_sensor_state (sample_device [Some "BE01"] [130; 131; 140])
                (fresh_world controller80)))).
Proof.
  refine (proj2 (sensor_read_after_refresh
                   (sample_device [Some "BE01"] [130; 131; 140])
                   (fresh_world controller80) true
                   (snd (_process_command
                           (sample_device [Some "BE01"] [130; 131; 140])
                           sensor_of_response "CurrentRainSensorState" []
                           (tick (fresh_world controller80)))) _ _ _)).
  - right. exists 100. split; [reflexivity | vm_compute; reflexivity].
  - vm_compute; reflexivity.
  - vm_compute; discriminate.
Defined.

Lemma cache_read_exception_keeps_controller_witness :
  self (snd (get_rain_sensor_state (sample_device [Some "0140"] [130])
               (fresh_world controller80))) = controller80 /\
  get_zone_state (sample_device [Some "0140"] [130]) 0 0
      (fresh_world controller80) =
    (Raise (ProtocolMismatch "BF" "01" (sample_decode "0140")),
     mkWorld controller80 [("CurrentStationsActive", 2)] 1).
Proof.
  split.
  - refine (proj1 (cache_read_exception_keeps_controller
                     (sample_device [Some "0140"] [130]) 0 0
                     (fresh_world controller80))
              (ProtocolMismatch "BE" "01" (sample_decode "0140")) _).
    vm_compute; reflexivity.
  - refine (proj1 (proj2 (cache_read_exception_keeps_controller
                            (sample_device [Some "0140"] [130]) 0 0
                            (fresh_world controller80))
                     (ProtocolMismatch "BF" "01" (sample_decode "0140"))
                     (mkWorld controller80 [("CurrentStationsActive", 2)] 1)
                     _ _)).
    + right. exists 100. split; [reflexivity | vm_compute; reflexivity].
    + vm_compute; reflexivity.
Defined.

Lemma irrigate_zone_requests_witness :
  sent (snd (irrigate_zone (sample_device [None; Some "BF0080000000"] []) 0 5
               (fresh_world controller0))) =
    [("CurrentStationsActive", 2); ("ManuallyRunStation", 4)] /\
  irrigate_zone (sample_device [Some "BE01"; Some "BF0080000000"] []) 0 5
      (fresh_world controller0) =
    (Raise (ProtocolMismatch "01" "BE" (sample_decode "BE01")),
     mkWorld controller0 [("ManuallyRunStation", 4)] 0).
Proof.
  split.
  - exact (irrigate_zone_requests (sample_device [None; Some "BF0080000000"] [])
             0 5 (fresh_world controller0)
             "ManuallyRunStation" (mkCommand 4 "01")
             "CurrentStationsActive" (mkCommand 2 "BF")
             eq_refl eq_refl eq_refl eq_refl).
  - exact (irrigate_zone_requests
             (sample_device [Some "BE01"; Some "BF0080000000"] [])
             0 5 (fresh_world controller0)
             "ManuallyRunStation" (mkCommand 4 "01")
             "CurrentStationsActive" (mkCommand 2 "BF")
             eq_refl eq_refl eq_refl eq_refl).
Defined.

Lemma stop_irrigation_requests_witness :
  sent (snd (stop_irrigation (sample_device [Some "0140"; None] [])
               (fresh_world controller0))) =
    [("CurrentStationsActive", 2); ("StopIrrigation", 1)].
Proof.
  exact (stop_irrigation_requests (sample_device [Some "0140"; None] [])
           (fresh_world controller0)
           "StopIrrigation" (mkCommand 1 "01")
           "CurrentStationsActive" (mkCommand 2 "BF")
           eq_refl eq_refl eq_refl eq_refl).
Defined.

Lemma failed_action_is_False_witness :
  fst (irrigate_zone (sample_device [None; Some "BF0080000000"] []) 0 5
         (fresh_world controller0)) = Ret (VBool false) /\
  fst (stop_irrigation (sample_device [None; Some "BF0000000000"] [])
         (fresh_world controller0)) = Ret (VBool false).
Proof.
  split.
  - refine (f_equal fst
              (proj1 (failed_action_is_False
                        (sample_device [None; Some "BF0080000000"] []) 0 5
                        (fresh_world controller0))
                 VNone
                 (snd (_process_command
                         (sample_device [None; Some "BF0080000000"] [])
                         (fun _ => Ret (VBool true)) "ManuallyRunStation" [0; 5]
                         (fresh_world controller0)))
                 (VStates (mkStates [true; false; false; false; false; false; false; false]))
                 (snd (irrigate_zone
                         (sample_device [None; Some "BF0080000000"] []) 0 5
                         (fresh_world controller0)))
                 _ _ _));
      [vm_compute; reflexivity | discriminate | vm_compute; reflexivity].
  - refine (f_equal fst
              (proj2 (failed_action_is_False
                        (sample_device [None; Some "BF0000000000"] []) 0 0
                        (fresh_world controller0))
                 VNone
                 (snd (_process_command
                         (sample_device [None; Some "BF0000000000"] [])
                         (fun _ => Ret (VBool true)) "StopIrrigation" []
                         (fresh_world controller0)))
                 (VStates States_00)
                 (snd (stop_irrigation
                         (sample_device [None; Some "BF0000000000"] [])
                         (fresh_world controller0)))
                 _ _ _));
      [vm_compute; reflexivity | discriminate | vm_compute; reflexivity].
Defined.

Lemma sensor_value_has_stamp_witness :
  sensor_stamped
    (self (session (sample_device [Some "BE01"; None] [100; 130])
             [GetRainSensorState; GetZoneState 0 0; GetRainSensorState]
             (fresh_world controller0))).
Proof.
  apply (sensor_value_has_stamp _ 20 controller0). reflexivity.
Defined.

Lemma format_08X_round_trip_witness :
  digits_value (list_ascii_of_string (format_08X 3735928559)) = Some 3735928559 /\
  String.length (format_08X 3735928559) = 8%nat.
Proof.
  destruct (format_08X_round_trip 3735928559) as [Hv Hl];
    [vm_compute; discriminate|].
  split; [exact Hv|]. apply Hl. vm_compute; reflexivity.
Defined.

Lemma refresh_keeps_top_byte_witness :
  states_of_response (sample_device [] []) (sample_decode "BF0080FFFFFF") =
  states_of_response (sample_device [] []) (sample_decode "BF0080000000").
Proof.
  refine (proj2 (proj2 (refresh_keeps_top_byte (sample_device [] [])
                          (sample_decode "BF0080000000")
                          2147483648 _ _))
            (sample_decode "BF0080FFFFFF") 2164260863 _ _ _);
    try (vm_compute; reflexivity); split; vm_compute; congruence.
Defined.
